(** * serveMesh: the request-serving entry point of the GraphQL Mesh CLI

    A shallow embedding of [packages/cli/src/commands/serve/serve.ts].

    [serveMesh] is one effectful procedure: it forks workers, builds an
    express application by a sequence of mounts, attaches a WebSocket
    server, and binds the listener.  The embedding records every call the
    procedure makes on its collaborators (cluster, logger, express app,
    ws server, http server) as an [Event] of a trace, and threads
    exceptions and promise rejections through a small trace-and-error
    monad.  Everything the procedure reads from its surroundings (the
    cluster role, the CPU count, the environment variable, the file
    system, the module loader) is a field of [Env]. *)

From Equations Require Import Equations.
From stdpp Require Import base list strings gmap pretty.
From Stdlib Require Import ZArith Lia.

Set Warnings "-register-all".

Local Open Scope Z_scope.

(** ** JavaScript values and helpers *)

(** Values a parsed JSON body (and a configuration object) can hold,
    together with [undefined]. *)
Inductive JsValue : Type :=
| JUndefined
| JNull
| JBool (b : bool)
| JNum (n : Z)
| JStr (s : string)
| JArr (items : list JsValue)
| JObj (fields : list (string * JsValue)).

(** What a [throw] or a rejected promise carries. *)
Inductive JsError : Type :=
| TypeError (message : string)
| RangeError (message : string)
| Rejection (message : string).

Definition error_message (e : JsError) : string :=
  match e with TypeError m | RangeError m | Rejection m => m end.

(** [String.prototype.toLowerCase] on the ASCII range; bytes outside
    [A-Z] are left as they are. *)
Definition lower_ascii (c : Ascii.ascii) : Ascii.ascii :=
  let n := Ascii.N_of_ascii c in
  if ((65 <=? n) && (n <=? 90))%N then Ascii.ascii_of_N (n + 32) else c.

Fixpoint toLowerCase (s : string) : string :=
  match s with
  | EmptyString => EmptyString
  | String c rest => String (lower_ascii c) (toLowerCase rest)
  end.

(** Truthiness of an optional string: [undefined] and [''] are falsy. *)
Definition truthy_string (s : option string) : bool :=
  match s with
  | Some s => negb (String.eqb s "")
  | None => false
  end.

(** Truthiness of an optional number: [undefined] and [0] are falsy. *)
Definition truthy_number (n : option Z) : bool :=
  match n with
  | Some n => negb (n =? 0)%Z
  | None => false
  end.

(** A destructuring default [x = d]: the default replaces [undefined]. *)
Definition or_default {A} (d : A) (x : option A) : A := default d x.

(** ** Configuration (YamlConfig.ServeConfig)

    The type is declared in [@graphql-mesh/types]; the fields below are
    the ones [serveMesh] destructures.  An optional field is [None] when
    the configuration leaves it out.  [fork] is a worker count, [port] is
    always supplied by the caller. *)

Inductive HandlerEntry : Type :=
| DynamicHandler (path : string) (method : option string) (handler : string)
| WebhookBridge (path : string) (pubsubTopic : string) (payload : option string).

Definition entry_path (h : HandlerEntry) : string :=
  match h with
  | DynamicHandler p _ _ => p
  | WebhookBridge p _ _ => p
  end.

Record UploadConfig : Type := {
  maxFileSize : option Z;
  maxFiles : option Z;
}.

Record SslCredentials : Type := {
  key : string;
  cert : string;
}.

Record CorsConfig : Type := {
  corsOptions : list (string * JsValue);
}.

Record ServeConfig : Type := {
  fork : option Z;
  exampleQuery : option string;
  port : Z;
  hostname : option string;
  cors : option CorsConfig;
  handlers : option (list HandlerEntry);
  staticFiles : option string;
  playground : option bool;
  upload : option UploadConfig;
  maxRequestBodySize : option string;
  sslCredentials : option SslCredentials;
}.

(** ** The surroundings of one run *)

(** How the bind attempt of [httpServer.listen] ends: the server emits
    either ['listening'] or ['error'] with the cause. *)
Inductive ListenOutcome : Type :=
| Listening
| ListenFailed (e : JsError).

(** A module export resolved by [loadFromModuleExportExpression]; the
    function itself is opaque, the expression it came from names it. *)
Record HandlerFn : Type := { resolved_from : string }.

Record Env : Type := {
  isMaster : bool;                                   (* cluster.isMaster *)
  cpus_length : nat;                                 (* os.cpus().length *)
  NODE_ENV : option string;                          (* process.env.NODE_ENV *)
  dirname : string;                                  (* __dirname *)
  join : list string -> string;                      (* path.join *)
  readFile : string -> JsError + string;             (* fs.promises.readFile(_, 'utf-8') *)
  createSecureContext : string -> string -> JsError + unit;
                                   (* whether https.createServer takes this key and certificate *)
  pathExists : string -> bool;
  app_member : string -> bool;                       (* typeof app[name] === 'function' *)
  loadFromModuleExportExpression : string -> JsError + HandlerFn;
  load_latency : string -> nat;                      (* when a module load settles *)
  loadDocuments : string -> JsError + list (option string);  (* rawSDL of each document *)
  listen_outcome : ListenOutcome;
}.

(** ** Events *)

(** What the [context] option handed to graphql-ws does when called. *)
Inductive ContextOption : Type :=
| ContextFromUpgradeRequest.     (* ctx => contextBuilder(ctx.extra.request) *)

Inductive Middleware : Type :=
| Cors (config : CorsConfig)
| BodyParserJson (limit : string)
| CookieParser
| Static (root : string)
| SendFile (file : string)
| GraphqlUpload (maxFileSize maxFiles : Z)
| GraphqlHandler
| PubSubHandler
| Dynamic (fn : HandlerFn)
| Bridge (pubsubTopic : string) (payload : option string)
| Playground (defaultQuery : option string) (graphqlPath : string).

Inductive Event : Type :=
| ClusterFork
| LogInfo (message : string)
| LogError (message : string)
| AppSet (setting value : string)
| CreateHTTPServer
| CreateHTTPSServer (key cert : string)
(** [app[verb](path, ...middlewares)]; [path = None] for [app.use(mw)]. *)
| Mount (verb : string) (path : option string) (middlewares : list Middleware)
| NewWsServer (path : string)
| UseServer (context : ContextOption)
| Listen (port : Z) (hostname : string).

(** ** A trace-and-error monad *)

Definition M (A : Type) : Type := list Event * (JsError + A).

Global Instance M_ret : MRet M := fun A x => ([], inr x).
Global Instance M_bind : MBind M := fun A B f m =>
  match m with
  | (t, inl e) => (t, inl e)
  | (t, inr x) => let '(t', r) := f x in (t ++ t', r)
  end.

Definition emit (e : Event) : M unit := ([e], inr tt).
Definition lift {A} (r : JsError + A) : M A := ([], r).
Definition when (b : bool) (m : M unit) : M unit := if b then m else mret tt.

Definition trace {A} (m : M A) : list Event := fst m.
Definition outcome {A} (m : M A) : JsError + A := snd m.

(** ** serveMesh: constants and the master branch *)

Definition graphqlPath : string := "/graphql".

Definition protocol (cfg : ServeConfig) : string :=
  match sslCredentials cfg with Some _ => "https" | None => "http" end.

Definition hostname_of (cfg : ServeConfig) : string :=
  or_default "localhost" (hostname cfg).

Definition serverUrl (cfg : ServeConfig) : string :=
  protocol cfg +:+ "://" +:+ hostname_of cfg +:+ ":" +:+ pretty (port cfg) +:+ graphqlPath.

(** [fork > 1 ? fork : cpus().length] *)
Definition forkNum (env : Env) (fork : Z) : Z :=
  if 1 <? fork then fork else Z.of_nat (cpus_length env).

(** [for (let i = 0; i < forkNum; i++) clusterFork();] *)
Equations? fork_loop (i forkNum : Z) : list Event by wf (Z.to_nat (forkNum - i)) lt :=
  fork_loop i forkNum with decide (i < forkNum) := {
    | left _ => ClusterFork :: fork_loop (i + 1) forkNum
    | right _ => [] }.
Proof. lia. Qed.

Definition serving_prefix : string := "🕸️ => Serving GraphQL Mesh: ".

Definition master_branch (env : Env) (cfg : ServeConfig) (fork : Z) : M unit :=
  let n := forkNum env fork in
  (fork_loop 0 n, inr tt) ;;
  emit (LogInfo (serving_prefix +:+ serverUrl cfg +:+ " in " +:+ pretty n +:+ " forks")).

(** ** serveMesh: the listener branch *)

(** [Promise.all([readFile(key), readFile(cert)])]: both reads are
    started; a failed read rejects the whole. *)
Definition read_credentials (env : Env) (creds : SslCredentials) : M (string * string) :=
  k ← lift (readFile env (key creds));
  c ← lift (readFile env (cert creds));
  mret (k, c).

(** [createHTTPSServer({ key, cert }, app)] throws on a key or a
    certificate it cannot use; [createHTTPServer(app)] does not throw. *)
Definition create_server (env : Env) (cfg : ServeConfig) : M unit :=
  match sslCredentials cfg with
  | Some creds =>
      kc ← read_credentials env creds;
      lift (createSecureContext env kc.1 kc.2) ;;
      emit (CreateHTTPSServer kc.1 kc.2)
  | None => emit CreateHTTPServer
  end.

Definition mount_cors (cfg : ServeConfig) : M unit :=
  match cors cfg with
  | Some corsConfig => emit (Mount "use" None [Cors corsConfig])
  | None => mret tt
  end.

Definition mount_static (env : Env) (baseDir : string) (cfg : ServeConfig) : M unit :=
  match staticFiles cfg with
  | Some dir =>
      if truthy_string (Some dir) then
        emit (Mount "use" None [Static dir]) ;;
        let indexPath := join env [baseDir; dir; "index.html"] in
        when (pathExists env indexPath)
             (emit (Mount "get" (Some "/") [SendFile indexPath]))
      else mret tt
  | None => mret tt
  end.

Definition upload_limits (cfg : ServeConfig) : Z * Z :=
  match upload cfg with
  | Some u => (or_default 10000000 (maxFileSize u), or_default 10 (maxFiles u))
  | None => (10000000, 10)
  end.

Definition body_limit (cfg : ServeConfig) : string :=
  or_default "100kb" (maxRequestBodySize cfg).

(** *** Configured handlers

    [Promise.all(handlers?.map(async handlerConfig => ...) || [])].
    [map] calls the async callback on each entry in turn; each call runs
    up to its first [await] and returns a promise.  A webhook entry has no
    [await]: its [app.use] happens during the [map] pass.  A dynamic entry
    suspends on the module load; what follows the [await] runs when the
    load has settled, after the [map] pass is over. *)

Record PendingLoad : Type := {
  pending_path : string;
  pending_method : option string;
  pending_handler : string;
}.

Record MapPass : Type := {
  registeredPaths : gset string;
  mounted : list Event;
  pending : list PendingLoad;
}.

Definition map_step (st : MapPass) (h : HandlerEntry) : MapPass :=
  let paths := {[ entry_path h ]} ∪ registeredPaths st in
  match h with
  | DynamicHandler p m hd =>
      {| registeredPaths := paths;
         mounted := mounted st;
         pending := pending st ++ [ {| pending_path := p; pending_method := m; pending_handler := hd |} ] |}
  | WebhookBridge p topic pl =>
      {| registeredPaths := paths;
         mounted := mounted st ++ [Mount "use" (Some p) [Bridge topic pl]];
         pending := pending st |}
  end.

Definition map_pass (hs : list HandlerEntry) : MapPass :=
  foldl map_step {| registeredPaths := ∅; mounted := []; pending := [] |} hs.

(** [handlerConfig.method.toLowerCase() || 'use']: reading [toLowerCase]
    of an absent method throws (the wording of the message is the
    engine's); an empty lower-cased method falls back to ['use']. *)
Definition mount_verb (method : option string) : JsError + string :=
  match method with
  | None => inl (TypeError "Cannot read property 'toLowerCase' of undefined")
  | Some m => inr (if String.eqb (toLowerCase m) "" then "use" else toLowerCase m)
  end.

Definition not_a_function : JsError := TypeError "app[...] is not a function".

(** The rest of the callback of a dynamic entry, run once its load
    settled: [app[verb](handlerConfig.path, handlerFn)], which throws
    when the application has no function member of that name. *)
Definition resume_load (env : Env) (p : PendingLoad) : M unit :=
  handlerFn ← lift (loadFromModuleExportExpression env (pending_handler p));
  verb ← lift (mount_verb (pending_method p));
  if app_member env verb
  then emit (Mount verb (Some (pending_path p)) [Dynamic handlerFn])
  else lift (inl not_a_function).

(** Loads settle by increasing latency, and in the order started among
    loads of equal latency. *)
Fixpoint insert_by (lat : PendingLoad -> nat) (p : PendingLoad) (ps : list PendingLoad)
  : list PendingLoad :=
  match ps with
  | [] => [p]
  | q :: qs => if (lat p <=? lat q)%nat then p :: q :: qs else q :: insert_by lat p qs
  end.

Definition settle_order (env : Env) (ps : list PendingLoad) : list PendingLoad :=
  foldr (insert_by (fun p => load_latency env (pending_handler p))) [] ps.

(** Every suspended callback is resumed, also after one of them failed;
    [Promise.all] rejects with the first failure. *)
Fixpoint resume_all (env : Env) (ps : list PendingLoad) : M unit :=
  match ps with
  | [] => mret tt
  | p :: rest =>
      let '(t1, r1) := resume_load env p in
      let '(t2, r2) := resume_all env rest in
      (t1 ++ t2, match r1 with inl e => inl e | inr _ => r2 end)
  end.

Definition mount_handlers (env : Env) (cfg : ServeConfig) : M unit :=
  match handlers cfg with
  | Some hs =>
      let st := map_pass hs in
      (mounted st, inr tt) ;;
      resume_all env (settle_order env (pending st))
  | None => mret tt
  end.

(** *** Playground *)

(** [typeof playground !== 'undefined' ? playground
      : process.env.NODE_ENV?.toLowerCase() !== 'production'] *)
Definition playground_enabled (env : Env) (cfg : ServeConfig) : bool :=
  match playground cfg with
  | Some flag => flag
  | None =>
      match NODE_ENV env with
      | Some v => negb (String.eqb (toLowerCase v) "production")
      | None => true
      end
  end.

Definition newline : string := String (Ascii.ascii_of_nat 10) EmptyString.

(** [documents.reduce((acc, doc) => (acc += doc.rawSDL! + newline), '')];
    an absent [rawSDL] is appended as the text of [undefined]. *)
Definition concat_sdl (documents : list (option string)) : string :=
  foldl (fun acc doc => acc +:+ or_default "undefined" doc +:+ newline)
        EmptyString documents.

Definition load_default_query (env : Env) (cfg : ServeConfig) : M (option string) :=
  match exampleQuery cfg with
  | Some q =>
      if truthy_string (Some q) then
        documents ← lift (loadDocuments env q);
        mret (Some (concat_sdl documents))
      else mret None
  | None => mret None
  end.

Definition mount_playground (env : Env) (cfg : ServeConfig) : M unit :=
  if playground_enabled env cfg then
    defaultQuery ← load_default_query env cfg;
    let playgroundMiddleware := Playground defaultQuery graphqlPath in
    when (negb (truthy_string (staticFiles cfg)))
         (emit (Mount "get" (Some "/") [playgroundMiddleware])) ;;
    emit (Mount "get" (Some graphqlPath) [playgroundMiddleware]) ;;
    emit (Mount "use" None [Static (join env [dirname env; "./public"])])
  else mret tt.

(** *** Binding *)

Definition failure_prefix : string := "Unable to start GraphQL-Mesh: ".

(** A port [listen] takes: an integer from 0 to 65535. *)
Definition valid_port (p : Z) : bool := (0 <=? p) && (p <=? 65535).

(** What [listen] throws for any other port. *)
Definition bad_port (p : Z) : JsError :=
  RangeError ("options.port should be >= 0 and < 65536. Received " +:+ pretty p +:+ ".").

(** [httpServer.listen(parseInt(port.toString()), hostname, cb).on('error', h)]:
    [listen] throws for a port out of range, before it binds; otherwise
    the bind attempt triggers one of the two callbacks.  For a numeric
    port, [parseInt(port.toString())] is the port. *)
Definition listen (env : Env) (cfg : ServeConfig) : M unit :=
  if valid_port (port cfg) then
    emit (Listen (port cfg) (hostname_of cfg)) ;;
    match listen_outcome env with
    | Listening =>
        when (negb (truthy_number (fork cfg)))
             (emit (LogInfo (serving_prefix +:+ serverUrl cfg)))
    | ListenFailed e =>
        emit (LogError (failure_prefix +:+ error_message e))
    end
  else lift (inl (bad_port (port cfg))).

(** Everything the [else] branch does before it binds. *)
Definition setup (env : Env) (baseDir : string) (cfg : ServeConfig) : M unit :=
  emit (AppSet "trust proxy" "loopback") ;;
  create_server env cfg ;;
  mount_cors cfg ;;
  emit (Mount "use" None [BodyParserJson (body_limit cfg)]) ;;
  emit (Mount "use" None [CookieParser]) ;;
  mount_static env baseDir cfg ;;
  emit (Mount "use" (Some graphqlPath)
              [GraphqlUpload (upload_limits cfg).1 (upload_limits cfg).2; GraphqlHandler]) ;;
  emit (NewWsServer graphqlPath) ;;
  emit (UseServer ContextFromUpgradeRequest) ;;
  emit (Mount "use" None [PubSubHandler]) ;;
  mount_handlers env cfg ;;
  mount_playground env cfg.

Definition listener_branch (env : Env) (baseDir : string) (cfg : ServeConfig) : M unit :=
  setup env baseDir cfg ;;
  listen env cfg.

Definition serveMesh (env : Env) (baseDir : string) (cfg : ServeConfig) : M unit :=
  match fork cfg with
  | Some f =>
      if isMaster env && truthy_number (Some f)
      then master_branch env cfg f
      else listener_branch env baseDir cfg
  | None => listener_branch env baseDir cfg
  end.

(** ** Request-time behaviour *)

Record Request : Type := {
  req_method : string;
  req_url : string;
  body : JsValue;                 (* req.body, as left by the JSON body parser *)
}.

(** Calls a request handler or the subscription server makes on its
    collaborators.  A built context is named by the position of the
    [contextBuilder] call that returned it. *)
Inductive Call : Type :=
| PubsubPublish (topic : string) (payload : JsValue)
| ResEnd
| BuildContext (initialContextValue : Request)
| SchemaExecute (context : nat)
| SchemaSubscribe (id : string) (context : nat).

Record Response : Type := {
  statusCode : Z;
  written : string;
  ended : bool;
}.

(** A fresh [http.ServerResponse]: status 200, nothing written. *)
Definition fresh_response : Response :=
  {| statusCode := 200; written := EmptyString; ended := false |}.

Definition respond (res : Response) (c : Call) : Response :=
  match c with
  | ResEnd => {| statusCode := statusCode res; written := written res; ended := true |}
  | _ => res
  end.

(** The bus, as far as a publisher sees it. *)
Record PubSub : Type := {
  subscribers : list (string * nat);
  published : list (string * JsValue);
}.

Definition deliver (bus : PubSub) (c : Call) : PubSub :=
  match c with
  | PubsubPublish topic payload =>
      {| subscribers := subscribers bus; published := published bus ++ [(topic, payload)] |}
  | _ => bus
  end.

Section Bridge.

(** lodash's [get(object, path)]. *)
Variable get : JsValue -> string -> JsValue.

(** The handler mounted for a webhook entry:
    [(req, res) => { let payload = req.body;
                     if (handlerConfig.payload) payload = get(payload, handlerConfig.payload);
                     pubsub.publish(handlerConfig.pubsubTopic, payload); res.end(); }] *)
Definition bridge_payload (payload : option string) (req : Request) : JsValue :=
  match payload with
  | Some p => if truthy_string (Some p) then get (body req) p else body req
  | None => body req
  end.

Definition bridge_handler (pubsubTopic : string) (payload : option string) (req : Request)
  : list Call :=
  [PubsubPublish pubsubTopic (bridge_payload payload req); ResEnd].

End Bridge.

(** A model of lodash's [get] on parsed JSON, for paths written with
    dots: a path that is itself a key of the object is one key, any
    other path is split at its dots; the walk stops at [null] or
    [undefined].  Strings are taken as ASCII.  Bracket syntax and members
    inherited from prototypes are outside this model. *)
Module Lodash.

Fixpoint own_property (k : string) (fields : list (string * JsValue)) : option JsValue :=
  match fields with
  | [] => None
  | (k', v) :: rest =>
      match own_property k rest with
      | Some later => Some later
      | None => if String.eqb k k' then Some v else None
      end
  end.

Fixpoint item_at (k : string) (i : N) (items : list JsValue) : option JsValue :=
  match items with
  | [] => None
  | v :: rest => if String.eqb k (pretty i) then Some v else item_at k (N.succ i) rest
  end.

Fixpoint char_at (k : string) (i : N) (s : string) : option JsValue :=
  match s with
  | EmptyString => None
  | String c rest =>
      if String.eqb k (pretty i) then Some (JStr (String c EmptyString))
      else char_at k (N.succ i) rest
  end.

(** [object[key]] *)
Definition member (object : JsValue) (k : string) : JsValue :=
  match object with
  | JObj fields => default JUndefined (own_property k fields)
  | JArr items =>
      if String.eqb k "length" then JNum (Z.of_nat (length items))
      else default JUndefined (item_at k 0%N items)
  | JStr s =>
      if String.eqb k "length" then JNum (Z.of_nat (String.length s))
      else default JUndefined (char_at k 0%N s)
  | _ => JUndefined
  end.

Definition is_nullish (v : JsValue) : bool :=
  match v with JUndefined | JNull => true | _ => false end.

Fixpoint split_dots (acc : string) (s : string) : list string :=
  match s with
  | EmptyString => [acc]
  | String c rest =>
      if Ascii.eqb c (Ascii.ascii_of_nat 46) then acc :: split_dots EmptyString rest
      else split_dots (acc +:+ String c EmptyString) rest
  end.

Definition castPath (path : string) (object : JsValue) : list string :=
  match object with
  | JObj fields =>
      match own_property path fields with
      | Some _ => [path]
      | None => split_dots EmptyString path
      end
  | _ => split_dots EmptyString path
  end.

Fixpoint baseGet (object : JsValue) (keys : list string) : JsValue :=
  match keys with
  | [] => object
  | k :: rest => if is_nullish object then JUndefined else baseGet (member object k) rest
  end.

Definition get (object : JsValue) (path : string) : JsValue :=
  if is_nullish object then JUndefined else baseGet object (castPath path object).

End Lodash.

(** ** Subscriptions over the WebSocket server

    [useServer({ schema, execute, subscribe, context }, wsServer)] hands
    graphql-ws a [context] option that is a function, and no hook for the
    handshake.  graphql-ws is a dependency, absent from the sources.
    What it decides on a message is a parameter below ([dispatch]); what
    is taken from the library is the contract of the option alone: the
    server calls a function-valued [context] when it prepares the
    execution arguments of an operation it starts for a subscribe
    message, and at no other time. *)

Inductive ClientMessage : Type :=
| ConnectionInit
| Subscribe (id : string)
| Complete (id : string).

(** [ctx => contextBuilder(ctx.extra.request)] *)
Definition context_option (opt : ContextOption) (upgrade : Request) : Call :=
  match opt with
  | ContextFromUpgradeRequest => BuildContext upgrade
  end.

(** One message of a connection.  [start] is the decision of the server
    to start the operation of a subscribe message; [built] counts the
    contexts built so far. *)
Definition on_message (opt : ContextOption) (upgrade : Request) (built : nat)
  (msg : ClientMessage) (start : bool) : list Call * nat :=
  match msg with
  | Subscribe id =>
      if start then ([context_option opt upgrade; SchemaSubscribe id built], S built)
      else ([], built)
  | ConnectionInit | Complete _ => ([], built)
  end.

Section Subscriptions.

(** The state graphql-ws keeps for a connection, and what it does with a
    message in a state: the next state, and whether it starts the
    operation of a subscribe message. *)
Variable Session : Type.
Variable dispatch : Session -> ClientMessage -> Session * bool.

Fixpoint connection (opt : ContextOption) (upgrade : Request) (s : Session) (built : nat)
  (msgs : list ClientMessage) : list Call :=
  match msgs with
  | [] => []
  | msg :: rest =>
      let '(s', start) := dispatch s msg in
      let '(calls, built') := on_message opt upgrade built msg start in
      calls ++ connection opt upgrade s' built' rest
  end.

(** The ids of the operations started over a sequence of messages. *)
Fixpoint started (s : Session) (msgs : list ClientMessage) : list string :=
  match msgs with
  | [] => []
  | msg :: rest =>
      let '(s', start) := dispatch s msg in
      match msg with
      | Subscribe id => if start then id :: started s' rest else started s' rest
      | ConnectionInit | Complete _ => started s' rest
      end
  end.

End Subscriptions.

Arguments connection {Session} dispatch opt upgrade s built msgs.
Arguments started {Session} dispatch s msgs.

(** Modelled on graphql-ws, which is absent from the sources: the
    message handling of its server for operations whose documents are
    valid.  A subscribe message on a connection not yet acknowledged
    closes it (4401), one whose id is in use closes it (4409), a second
    [connection_init] closes it (4429); a closed connection handles
    nothing; a complete message releases its id. *)
Module GraphqlWs.

Record Session : Type := {
  acknowledged : bool;
  in_use : list string;
  closed : bool;
}.

Definition opened : Session :=
  {| acknowledged := false; in_use := []; closed := false |}.

Definition close (s : Session) : Session :=
  {| acknowledged := acknowledged s; in_use := []; closed := true |}.

Definition id_in_use (id : string) (s : Session) : bool :=
  existsb (String.eqb id) (in_use s).

Definition dispatch (s : Session) (msg : ClientMessage) : Session * bool :=
  if closed s then (s, false)
  else
    match msg with
    | ConnectionInit =>
        if acknowledged s then (close s, false)
        else ({| acknowledged := true; in_use := in_use s; closed := false |}, false)
    | Subscribe id =>
        if negb (acknowledged s) then (close s, false)
        else if id_in_use id s then (close s, false)
        else ({| acknowledged := true; in_use := id :: in_use s; closed := false |}, true)
    | Complete id =>
        ({| acknowledged := acknowledged s;
            in_use := List.filter (fun i => negb (String.eqb id i)) (in_use s);
            closed := false |}, false)
    end.

End GraphqlWs.

Definition context_builds (calls : list Call) : list Request :=
  omap (fun c => match c with BuildContext r => Some r | _ => None end) calls.

Definition subscription_contexts (calls : list Call) : list (string * nat) :=
  omap (fun c => match c with SchemaSubscribe id k => Some (id, k) | _ => None end) calls.

Definition is_subscribe (msg : ClientMessage) : bool :=
  match msg with Subscribe _ => true | _ => false end.

(** ** Observations on traces *)

Definition is_fork (e : Event) : bool :=
  match e with ClusterFork => true | _ => false end.

Definition is_log (e : Event) : bool :=
  match e with LogInfo _ | LogError _ => true | _ => false end.

Definition is_listen (e : Event) : bool :=
  match e with Listen _ _ => true | _ => false end.

Definition is_playground (mw : Middleware) : bool :=
  match mw with Playground _ _ => true | _ => false end.

Definition mounts_playground (e : Event) : bool :=
  match e with Mount _ _ mws => existsb is_playground mws | _ => false end.

(** Worker processes spawned, log lines written, playground routes mounted. *)
Definition spawned (t : list Event) : nat := length (List.filter is_fork t).
Definition logs (t : list Event) : list Event := List.filter is_log t.
Definition playground_routes (t : list Event) : list Event := List.filter mounts_playground t.

(** Events of the listener setup: everything but forks, logs and binds. *)
Definition is_setup (e : Event) : bool :=
  match e with
  | AppSet _ _ | CreateHTTPServer | CreateHTTPSServer _ _
  | Mount _ _ _ | NewWsServer _ | UseServer _ => true
  | _ => false
  end.

(** Setup events that mount no playground route. *)
Definition is_plain_setup (e : Event) : bool :=
  is_setup e && negb (mounts_playground e).

Abbreviation plain := (fun e => is_plain_setup e = true).

(** Whether this process takes the serving branch of [serveMesh]. *)
Definition serves (env : Env) (cfg : ServeConfig) : bool :=
  negb (isMaster env && truthy_number (fork cfg)).

(** [process.env.NODE_ENV] says production, in any letter case. *)
Definition production (env : Env) : Prop :=
  exists v, NODE_ENV env = Some v /\ toLowerCase v = "production".

(** ** What a configured entry contributes *)

(** The mount of a webhook entry. *)
Definition bridge_mount (h : HandlerEntry) : option Event :=
  match h with
  | WebhookBridge p topic pl => Some (Mount "use" (Some p) [Bridge topic pl])
  | DynamicHandler _ _ _ => None
  end.

(** The load a dynamic entry starts. *)
Definition load_of (h : HandlerEntry) : option PendingLoad :=
  match h with
  | DynamicHandler p m hd =>
      Some {| pending_path := p; pending_method := m; pending_handler := hd |}
  | WebhookBridge _ _ _ => None
  end.

(** The mount a settled load leads to, if it leads to one. *)
Definition dynamic_mount (env : Env) (p : PendingLoad) : option Event :=
  match loadFromModuleExportExpression env (pending_handler p), mount_verb (pending_method p) with
  | inr handlerFn, inr verb =>
      if app_member env verb
      then Some (Mount verb (Some (pending_path p)) [Dynamic handlerFn])
      else None
  | _, _ => None
  end.

(** The mount an entry leads to. *)
Definition mount_of (env : Env) (h : HandlerEntry) : option Event :=
  match h with
  | WebhookBridge _ _ _ => bridge_mount h
  | DynamicHandler _ _ _ => load_of h ≫= dynamic_mount env
  end.

Definition is_bridge (h : HandlerEntry) : bool :=
  match h with WebhookBridge _ _ _ => true | DynamicHandler _ _ _ => false end.

(** The default query the playground gets when the documents load. *)
Definition default_query (env : Env) (cfg : ServeConfig) : option string :=
  match exampleQuery cfg with
  | Some q =>
      if truthy_string (Some q) then
        match loadDocuments env q with
        | inr documents => Some (concat_sdl documents)
        | inl _ => None
        end
      else None
  | None => None
  end.

Definition playgroundMiddleware (env : Env) (cfg : ServeConfig) : Middleware :=
  Playground (default_query env cfg) graphqlPath.

(** Calls that build a context or run the schema. *)
Definition is_execution (c : Call) : bool :=
  match c with
  | BuildContext _ | SchemaExecute _ | SchemaSubscribe _ _ => true
  | _ => false
  end.

(** ** Sample surroundings, configurations and requests *)

Definition join_with_slash (parts : list string) : string :=
  match parts with
  | [] => "."
  | p :: rest => foldl (fun acc q => acc +:+ "/" +:+ q) p rest
  end.

(** Files that read as PEM text, and a TLS layer that takes PEM text. *)
Definition pem_file (file : string) : JsError + string :=
  inr ("-----BEGIN " +:+ file +:+ "-----").

Definition accept_pem (key cert : string) : JsError + unit :=
  if String.prefix "-----BEGIN " key && String.prefix "-----BEGIN " cert then inr tt
  else inl (Rejection "error:0909006C:PEM routines:get_name:no start line").

(** Some members of an express application that register a handler. *)
Definition routing_members : list string :=
  ["use"; "all"; "get"; "post"; "put"; "delete"; "patch"; "head"; "options"].

(** A four-core machine on which every file reads, no index document
    exists, and every module loads at once. *)
Definition machine (master : bool) (node_env : option string) (bind : ListenOutcome) : Env := {|
  isMaster := master;
  cpus_length := 4;
  NODE_ENV := node_env;
  dirname := "/cli/dist";
  join := join_with_slash;
  readFile := pem_file;
  createSecureContext := accept_pem;
  pathExists := fun _ => false;
  app_member := fun name => bool_decide (name ∈ routing_members);
  loadFromModuleExportExpression := fun e => inr {| resolved_from := e |};
  load_latency := fun _ => 0%nat;
  loadDocuments := fun _ => inr [];
  listen_outcome := bind;
|}.

(** The machine with [NODE_ENV] unset and the port free. *)
Definition quad_core (master : bool) : Env := machine master None Listening.

(** The machine as a worker or single process, with [NODE_ENV] set. *)
Definition quad_core_in (node_env : string) : Env := machine false (Some node_env) Listening.

Definition port_in_use : JsError :=
  Rejection "listen EADDRINUSE: address already in use 127.0.0.1:4000".

(** The machine as a worker or single process, with the port taken. *)
Definition quad_core_port_taken : Env := machine false None (ListenFailed port_in_use).

(** Only the port set. *)
Definition bare_config : ServeConfig := {|
  fork := None; exampleQuery := None; port := 4000; hostname := None; cors := None;
  handlers := None; staticFiles := None; playground := None; upload := None;
  maxRequestBodySize := None; sslCredentials := None;
|}.

Definition with_fork (f : Z) (cfg : ServeConfig) : ServeConfig := {|
  fork := Some f; exampleQuery := exampleQuery cfg; port := port cfg;
  hostname := hostname cfg; cors := cors cfg; handlers := handlers cfg;
  staticFiles := staticFiles cfg; playground := playground cfg; upload := upload cfg;
  maxRequestBodySize := maxRequestBodySize cfg; sslCredentials := sslCredentials cfg;
|}.

Definition with_port (p : Z) (cfg : ServeConfig) : ServeConfig := {|
  fork := fork cfg; exampleQuery := exampleQuery cfg; port := p;
  hostname := hostname cfg; cors := cors cfg; handlers := handlers cfg;
  staticFiles := staticFiles cfg; playground := playground cfg; upload := upload cfg;
  maxRequestBodySize := maxRequestBodySize cfg; sslCredentials := sslCredentials cfg;
|}.

Definition with_handlers (hs : list HandlerEntry) (cfg : ServeConfig) : ServeConfig := {|
  fork := fork cfg; exampleQuery := exampleQuery cfg; port := port cfg;
  hostname := hostname cfg; cors := cors cfg; handlers := Some hs;
  staticFiles := staticFiles cfg; playground := playground cfg; upload := upload cfg;
  maxRequestBodySize := maxRequestBodySize cfg; sslCredentials := sslCredentials cfg;
|}.

Definition with_playground (flag : bool) (cfg : ServeConfig) : ServeConfig := {|
  fork := fork cfg; exampleQuery := exampleQuery cfg; port := port cfg;
  hostname := hostname cfg; cors := cors cfg; handlers := handlers cfg;
  staticFiles := staticFiles cfg; playground := Some flag; upload := upload cfg;
  maxRequestBodySize := maxRequestBodySize cfg; sslCredentials := sslCredentials cfg;
|}.

Definition with_staticFiles (dir : string) (cfg : ServeConfig) : ServeConfig := {|
  fork := fork cfg; exampleQuery := exampleQuery cfg; port := port cfg;
  hostname := hostname cfg; cors := cors cfg; handlers := handlers cfg;
  staticFiles := Some dir; playground := playground cfg; upload := upload cfg;
  maxRequestBodySize := maxRequestBodySize cfg; sslCredentials := sslCredentials cfg;
|}.

(** A webhook request with the body [{"event": {"id": 42}}]. *)
Definition event_request : Request := {|
  req_method := "POST";
  req_url := "/webhook";
  body := JObj [("event", JObj [("id", JNum 42)])];
|}.

Definition idle_bus : PubSub := {| subscribers := []; published := [] |}.

(** The request that opens a WebSocket connection. *)
Definition upgrade_request : Request := {|
  req_method := "GET";
  req_url := "/graphql";
  body := JUndefined;
|}.

(** ** Further observations and variations *)

(** [a] is emitted before [b]. *)
Definition precedes (a b : Event) (t : list Event) : Prop :=
  exists t1 t2 t3, t = t1 ++ a :: t2 ++ b :: t3.

Definition is_mount (e : Event) : bool :=
  match e with Mount _ _ _ => true | _ => false end.

(** The mount of a configured entry: one bridge or one resolved handler,
    at a path. *)
Definition is_handler_mount (e : Event) : bool :=
  match e with
  | Mount _ (Some _) [Bridge _ _] | Mount _ (Some _) [Dynamic _] => true
  | _ => false
  end.

Definition is_server_creation (e : Event) : bool :=
  match e with CreateHTTPServer | CreateHTTPSServer _ _ => true | _ => false end.

Definition is_send_file (mw : Middleware) : bool :=
  match mw with SendFile _ => true | _ => false end.

(** Routes that send a file. *)
Definition mounts_send_file (e : Event) : bool :=
  match e with Mount _ _ mws => existsb is_send_file mws | _ => false end.

(** A dynamic entry whose callback cannot mount: its module does not
    load, or it declares no method. *)
Definition entry_fails (env : Env) (h : HandlerEntry) : bool :=
  match h with
  | DynamicHandler _ m hd =>
      match loadFromModuleExportExpression env hd, m with
      | inr _, Some _ => false
      | _, _ => true
      end
  | WebhookBridge _ _ _ => false
  end.

Definition is_res_end (c : Call) : bool :=
  match c with ResEnd => true | _ => false end.

(** The calls of the bridge handler over a sequence of requests. *)
Definition bridge_requests (get : JsValue -> string -> JsValue) (pubsubTopic : string)
  (payload : option string) (reqs : list Request) : list Call :=
  reqs ≫= bridge_handler get pubsubTopic payload.

Definition with_sslCredentials (creds : SslCredentials) (cfg : ServeConfig) : ServeConfig := {|
  fork := fork cfg; exampleQuery := exampleQuery cfg; port := port cfg;
  hostname := hostname cfg; cors := cors cfg; handlers := handlers cfg;
  staticFiles := staticFiles cfg; playground := playground cfg; upload := upload cfg;
  maxRequestBodySize := maxRequestBodySize cfg; sslCredentials := Some creds;
|}.

Definition with_exampleQuery (q : string) (cfg : ServeConfig) : ServeConfig := {|
  fork := fork cfg; exampleQuery := Some q; port := port cfg;
  hostname := hostname cfg; cors := cors cfg; handlers := handlers cfg;
  staticFiles := staticFiles cfg; playground := playground cfg; upload := upload cfg;
  maxRequestBodySize := maxRequestBodySize cfg; sslCredentials := sslCredentials cfg;
|}.

Definition with_cors (c : CorsConfig) (cfg : ServeConfig) : ServeConfig := {|
  fork := fork cfg; exampleQuery := exampleQuery cfg; port := port cfg;
  hostname := hostname cfg; cors := Some c; handlers := handlers cfg;
  staticFiles := staticFiles cfg; playground := playground cfg; upload := upload cfg;
  maxRequestBodySize := maxRequestBodySize cfg; sslCredentials := sslCredentials cfg;
|}.

(** The same surroundings with another file system, module loader or
    document loader. *)
Definition with_readFile (f : string -> JsError + string) (env : Env) : Env := {|
  isMaster := isMaster env; cpus_length := cpus_length env; NODE_ENV := NODE_ENV env;
  dirname := dirname env; join := join env; readFile := f;
  createSecureContext := createSecureContext env; pathExists := pathExists env;
  app_member := app_member env;
  loadFromModuleExportExpression := loadFromModuleExportExpression env;
  load_latency := load_latency env; loadDocuments := loadDocuments env;
  listen_outcome := listen_outcome env;
|}.

Definition with_pathExists (f : string -> bool) (env : Env) : Env := {|
  isMaster := isMaster env; cpus_length := cpus_length env; NODE_ENV := NODE_ENV env;
  dirname := dirname env; join := join env; readFile := readFile env;
  createSecureContext := createSecureContext env; pathExists := f;
  app_member := app_member env;
  loadFromModuleExportExpression := loadFromModuleExportExpression env;
  load_latency := load_latency env; loadDocuments := loadDocuments env;
  listen_outcome := listen_outcome env;
|}.

Definition with_loader (f : string -> JsError + HandlerFn) (env : Env) : Env := {|
  isMaster := isMaster env; cpus_length := cpus_length env; NODE_ENV := NODE_ENV env;
  dirname := dirname env; join := join env; readFile := readFile env;
  createSecureContext := createSecureContext env; pathExists := pathExists env;
  app_member := app_member env;
  loadFromModuleExportExpression := f;
  load_latency := load_latency env; loadDocuments := loadDocuments env;
  listen_outcome := listen_outcome env;
|}.

Definition with_loadDocuments (f : string -> JsError + list (option string)) (env : Env) : Env := {|
  isMaster := isMaster env; cpus_length := cpus_length env; NODE_ENV := NODE_ENV env;
  dirname := dirname env; join := join env; readFile := readFile env;
  createSecureContext := createSecureContext env; pathExists := pathExists env;
  app_member := app_member env;
  loadFromModuleExportExpression := loadFromModuleExportExpression env;
  load_latency := load_latency env; loadDocuments := f;
  listen_outcome := listen_outcome env;
|}.

Definition sample_credentials : SslCredentials :=
  {| key := "/etc/ssl/mesh.key"; cert := "/etc/ssl/mesh.crt" |}.

Definition no_such_file : JsError :=
  Rejection "ENOENT: no such file or directory".

(** A file system on which only the key file is missing. *)
Definition missing_key (file : string) : JsError + string :=
  if String.eqb file (key sample_credentials) then inl no_such_file
  else pem_file file.

Definition module_not_found : JsError :=
  Rejection "Cannot find module".

(** The events of a serving run that completes, written out: the
    application setting, the server, the middlewares in the order of
    their mounts, the configured handlers, the playground, the bind and
    what the bind attempt logs. *)
Definition full_listener_trace (env : Env) (baseDir : string) (cfg : ServeConfig)
  : list Event :=
  let scheme := match sslCredentials cfg with Some _ => "https" | None => "http" end in
  let host := default "localhost" (hostname cfg) in
  let url := scheme +:+ "://" +:+ host +:+ ":" +:+ pretty (port cfg) +:+ "/graphql" in
  let static_root :=
    match staticFiles cfg with
    | Some dir => if String.eqb dir "" then None else Some dir
    | None => None
    end in
  let explorer := Playground (default_query env cfg) "/graphql" in
  let explorer_enabled :=
    match playground cfg with
    | Some flag => flag
    | None =>
        match NODE_ENV env with
        | Some v => negb (String.eqb (toLowerCase v) "production")
        | None => true
        end
    end in
  AppSet "trust proxy" "loopback" ::
  match sslCredentials cfg with
  | Some creds =>
      match readFile env (key creds), readFile env (cert creds) with
      | inr k, inr c => [CreateHTTPSServer k c]
      | _, _ => []
      end
  | None => [CreateHTTPServer]
  end ++
  match cors cfg with Some c => [Mount "use" None [Cors c]] | None => [] end ++
  Mount "use" None [BodyParserJson (default "100kb" (maxRequestBodySize cfg))] ::
  Mount "use" None [CookieParser] ::
  match static_root with
  | Some dir =>
      Mount "use" None [Static dir] ::
      (if pathExists env (join env [baseDir; dir; "index.html"])
       then [Mount "get" (Some "/") [SendFile (join env [baseDir; dir; "index.html"])]]
       else [])
  | None => []
  end ++
  Mount "use" (Some "/graphql")
        [GraphqlUpload (default 10000000 (upload cfg ≫= maxFileSize))
                       (default 10 (upload cfg ≫= maxFiles));
         GraphqlHandler] ::
  NewWsServer "/graphql" ::
  UseServer ContextFromUpgradeRequest ::
  Mount "use" None [PubSubHandler] ::
  match handlers cfg with
  | Some hs =>
      omap bridge_mount hs ++ omap (dynamic_mount env) (settle_order env (omap load_of hs))
  | None => []
  end ++
  (if explorer_enabled then
     match static_root with
     | Some _ => []
     | None => [Mount "get" (Some "/") [explorer]]
     end ++
     [Mount "get" (Some "/graphql") [explorer];
      Mount "use" None [Static (join env [dirname env; "./public"])]]
   else []) ++
  Listen (port cfg) host ::
  match listen_outcome env with
  | Listening =>
      if truthy_number (fork cfg) then []
      else [LogInfo ("🕸️ => Serving GraphQL Mesh: " +:+ url)]
  | ListenFailed e => [LogError ("Unable to start GraphQL-Mesh: " +:+ error_message e)]
  end.

(** ** The monad *)

Lemma bind_ok {A B} (m : M A) (f : A -> M B) (x : A) :
  outcome m = inr x ->
  m ≫= f = (trace m ++ trace (f x), outcome (f x)).
Proof.
  destruct m as [t [e|a]]; simpl; intros H; [discriminate|].
  injection H as ->. unfold mbind, M_bind. destruct (f x); reflexivity.
Qed.

Lemma bind_failed {A B} (m : M A) (f : A -> M B) (e : JsError) :
  outcome m = inl e ->
  m ≫= f = (trace m, inl e).
Proof.
  destruct m as [t [e'|a]]; simpl; intros H; [|discriminate].
  injection H as ->. reflexivity.
Qed.

Lemma bind_outcome_ok {A B} (m : M A) (f : A -> M B) (y : B) :
  outcome (m ≫= f) = inr y ->
  exists x, outcome m = inr x /\ outcome (f x) = inr y.
Proof.
  destruct m as [t [e|a]]; simpl; [discriminate|].
  intros H. exists a. split; [reflexivity|].
  unfold mbind, M_bind in H. destruct (f a); exact H.
Qed.

Lemma Forall_trace_bind {A B} (P : Event -> Prop) (m : M A) (f : A -> M B) :
  Forall P (trace m) ->
  (forall x, Forall P (trace (f x))) ->
  Forall P (trace (m ≫= f)).
Proof.
  intros Hm Hf. destruct (outcome m) as [e|x] eqn:Ho.
  - rewrite (bind_failed _ _ _ Ho). exact Hm.
  - rewrite (bind_ok _ _ _ Ho). simpl. apply Forall_app. split; [exact Hm|apply Hf].
Qed.

Lemma Forall_trace_lift {A} (P : Event -> Prop) (r : JsError + A) :
  Forall P (trace (lift r)).
Proof. constructor. Qed.

Lemma Forall_trace_emit (P : Event -> Prop) (e : Event) :
  P e -> Forall P (trace (emit e)).
Proof. intros H. constructor; [exact H|constructor]. Qed.

Lemma Forall_trace_ret {A} (P : Event -> Prop) (x : A) :
  Forall P (trace (mret x : M A)).
Proof. constructor. Qed.

Lemma Forall_trace_when (P : Event -> Prop) (b : bool) (m : M unit) :
  Forall P (trace m) -> Forall P (trace (when b m)).
Proof. intros H. destruct b; [exact H|constructor]. Qed.

Lemma filter_none (P : Event -> bool) (Q : Event -> bool) (t : list Event) :
  Forall (fun e => Q e = true) t ->
  (forall e, Q e = true -> P e = false) ->
  List.filter P t = [].
Proof.
  intros Ht HPQ. induction Ht as [|e t He _ IH]; [reflexivity|].
  simpl. rewrite (HPQ e He). exact IH.
Qed.

(** ** The fork loop *)

Lemma fork_loop_replicate (i n : Z) :
  fork_loop i n = replicate (Z.to_nat (n - i)) ClusterFork.
Proof.
  funelim (fork_loop i n).
  - rewrite H. replace (Z.to_nat (forkNum0 - i)) with (S (Z.to_nat (forkNum0 - (i + 1)))) by lia.
    reflexivity.
  - replace (Z.to_nat (forkNum0 - i)) with 0%nat by lia. reflexivity.
Qed.

Lemma master_branch_run (env : Env) (cfg : ServeConfig) (f : Z) :
  master_branch env cfg f =
    (replicate (Z.to_nat (forkNum env f)) ClusterFork ++
     [LogInfo (serving_prefix +:+ serverUrl cfg +:+ " in " +:+ pretty (forkNum env f) +:+ " forks")],
     inr tt).
Proof.
  unfold master_branch. rewrite fork_loop_replicate, Z.sub_0_r. reflexivity.
Qed.

Lemma filter_fork_replicate (n : nat) :
  List.filter is_fork (replicate n ClusterFork) = replicate n ClusterFork.
Proof. induction n as [|n IH]; simpl; [reflexivity|]. rewrite IH. reflexivity. Qed.

Lemma filter_log_replicate (n : nat) :
  List.filter is_log (replicate n ClusterFork) = [].
Proof. induction n as [|n IH]; simpl; [reflexivity|]. exact IH. Qed.

(** ** Configured handlers *)

Lemma map_pass_from (st : MapPass) (hs : list HandlerEntry) :
  mounted (foldl map_step st hs) = mounted st ++ omap bridge_mount hs /\
  pending (foldl map_step st hs) = pending st ++ omap load_of hs.
Proof.
  revert st. induction hs as [|h hs IH]; intros st; simpl.
  - rewrite !app_nil_r. split; reflexivity.
  - destruct (IH (map_step st h)) as [Hm Hp]. rewrite Hm, Hp.
    destruct h; simpl; rewrite <- ?app_assoc; split; reflexivity.
Qed.

Lemma map_pass_mounted (hs : list HandlerEntry) :
  mounted (map_pass hs) = omap bridge_mount hs.
Proof. unfold map_pass. rewrite (proj1 (map_pass_from _ hs)). reflexivity. Qed.

Lemma map_pass_pending (hs : list HandlerEntry) :
  pending (map_pass hs) = omap load_of hs.
Proof. unfold map_pass. rewrite (proj2 (map_pass_from _ hs)). reflexivity. Qed.

Lemma resume_load_trace (env : Env) (p : PendingLoad) :
  trace (resume_load env p) = option_list (dynamic_mount env p).
Proof.
  unfold resume_load, dynamic_mount.
  destruct (loadFromModuleExportExpression env (pending_handler p)) as [e|fn]; [reflexivity|].
  destruct (mount_verb (pending_method p)) as [e|verb]; [reflexivity|].
  simpl. destruct (app_member env verb); reflexivity.
Qed.

Lemma resume_all_trace (env : Env) (ps : list PendingLoad) :
  trace (resume_all env ps) = omap (dynamic_mount env) ps.
Proof.
  induction ps as [|p ps IH]; [reflexivity|].
  simpl. pose proof (resume_load_trace env p) as Hp.
  destruct (resume_load env p) as [t1 r1]. destruct (resume_all env ps) as [t2 r2].
  simpl in *. subst. destruct (dynamic_mount env p); reflexivity.
Qed.

Lemma resume_load_ok (env : Env) (p : PendingLoad) :
  outcome (resume_load env p) = inr tt -> is_Some (dynamic_mount env p).
Proof.
  unfold resume_load, dynamic_mount.
  destruct (loadFromModuleExportExpression env (pending_handler p)) as [e|fn]; [discriminate|].
  destruct (mount_verb (pending_method p)) as [e|verb]; [discriminate|].
  simpl. destruct (app_member env verb); [|discriminate].
  intros _. eexists. reflexivity.
Qed.

Lemma resume_all_ok (env : Env) (ps : list PendingLoad) :
  outcome (resume_all env ps) = inr tt ->
  Forall (fun p => is_Some (dynamic_mount env p)) ps.
Proof.
  induction ps as [|p ps IH]; [constructor|].
  simpl. pose proof (resume_load_ok env p) as Hp.
  destruct (resume_load env p) as [t1 r1]. destruct (resume_all env ps) as [t2 r2].
  simpl in *. destruct r1 as [e|[]]; [discriminate|].
  intros H. constructor; [apply Hp; reflexivity|apply IH; exact H].
Qed.

Lemma mount_handlers_trace (env : Env) (cfg : ServeConfig) (hs : list HandlerEntry) :
  handlers cfg = Some hs ->
  trace (mount_handlers env cfg) =
    omap bridge_mount hs ++ omap (dynamic_mount env) (settle_order env (omap load_of hs)).
Proof.
  intros H. unfold mount_handlers. rewrite H.
  rewrite (bind_ok _ _ tt) by reflexivity. simpl.
  rewrite resume_all_trace, map_pass_mounted, map_pass_pending. reflexivity.
Qed.

(** *** The order in which loads settle *)

Lemma insert_by_perm (lat : PendingLoad -> nat) (p : PendingLoad) (ps : list PendingLoad) :
  insert_by lat p ps ≡ₚ p :: ps.
Proof.
  induction ps as [|q qs IH]; simpl; [reflexivity|].
  destruct (lat p <=? lat q)%nat; [reflexivity|].
  rewrite IH. apply Permutation_swap.
Qed.

Lemma settle_order_perm (env : Env) (ps : list PendingLoad) :
  settle_order env ps ≡ₚ ps.
Proof.
  induction ps as [|p ps IH]; simpl; [reflexivity|].
  unfold settle_order in *. simpl. rewrite insert_by_perm, IH. reflexivity.
Qed.

Lemma settle_order_fifo (env : Env) (ps : list PendingLoad) :
  (forall p q, p ∈ ps -> q ∈ ps ->
     load_latency env (pending_handler p) = load_latency env (pending_handler q)) ->
  settle_order env ps = ps.
Proof.
  induction ps as [|p ps IH]; intros Heq; [reflexivity|].
  unfold settle_order in *. simpl. rewrite IH.
  - destruct ps as [|q qs]; [reflexivity|]. simpl.
    rewrite (Heq p q) by (rewrite !elem_of_cons; auto).
    rewrite Nat.leb_refl. reflexivity.
  - intros a b Ha Hb. apply Heq; apply elem_of_cons; right; assumption.
Qed.

(** ** What each part of the setup can emit *)

(** Finds an event written out in a trace built from [::] and [++]. *)
Ltac find_event :=
  first [ apply elem_of_cons; left; reflexivity
        | apply elem_of_cons; right; find_event
        | apply elem_of_app; left; find_event
        | apply elem_of_app; right; find_event ].

Ltac trace_steps :=
  repeat first
    [ apply Forall_trace_bind; [|intros ?]
    | apply Forall_trace_when
    | apply Forall_trace_emit; reflexivity
    | apply Forall_trace_lift
    | apply Forall_trace_ret ].

Lemma create_server_plain (env : Env) (cfg : ServeConfig) :
  Forall plain (trace (create_server env cfg)).
Proof.
  unfold create_server, read_credentials. destruct (sslCredentials cfg); trace_steps.
Qed.

Lemma mount_cors_plain (cfg : ServeConfig) :
  Forall plain (trace (mount_cors cfg)).
Proof. unfold mount_cors. destruct (cors cfg); trace_steps. Qed.

Lemma mount_static_plain (env : Env) (baseDir : string) (cfg : ServeConfig) :
  Forall plain (trace (mount_static env baseDir cfg)).
Proof.
  unfold mount_static. destruct (staticFiles cfg) as [dir|]; [|trace_steps].
  destruct (truthy_string (Some dir)); trace_steps.
Qed.

Lemma bridge_mount_plain (h : HandlerEntry) (e : Event) :
  bridge_mount h = Some e -> is_plain_setup e = true.
Proof. destruct h; simpl; intros H; [discriminate|]. injection H as <-. reflexivity. Qed.

Lemma dynamic_mount_plain (env : Env) (p : PendingLoad) (e : Event) :
  dynamic_mount env p = Some e -> is_plain_setup e = true.
Proof.
  unfold dynamic_mount.
  destruct (loadFromModuleExportExpression env _); [discriminate|].
  destruct (mount_verb _); [discriminate|].
  destruct (app_member env _); [|discriminate].
  intros H. injection H as <-. reflexivity.
Qed.

Lemma mount_handlers_plain (env : Env) (cfg : ServeConfig) :
  Forall plain (trace (mount_handlers env cfg)).
Proof.
  destruct (handlers cfg) as [hs|] eqn:Hh.
  - rewrite (mount_handlers_trace env cfg hs Hh).
    apply Forall_app. split; apply Forall_forall; intros e He;
      apply list_elem_of_omap in He as (x & _ & Hx).
    + exact (bridge_mount_plain _ _ Hx).
    + exact (dynamic_mount_plain _ _ _ Hx).
  - unfold mount_handlers. rewrite Hh. constructor.
Qed.

Lemma plain_is_setup (t : list Event) :
  Forall plain t -> Forall (fun e => is_setup e = true) t.
Proof.
  intros Ht. eapply Forall_impl; [exact Ht|].
  intros e H. unfold is_plain_setup in H.
  apply andb_prop in H. tauto.
Qed.

Lemma mount_playground_setup (env : Env) (cfg : ServeConfig) :
  Forall (fun e => is_setup e = true) (trace (mount_playground env cfg)).
Proof.
  unfold mount_playground, load_default_query.
  destruct (playground_enabled env cfg); [|trace_steps].
  destruct (exampleQuery cfg) as [q|]; [destruct (truthy_string (Some q))|]; trace_steps.
Qed.

(** The trace of the setup, part by part, when no part failed. *)
Lemma setup_ok (env : Env) (baseDir : string) (cfg : ServeConfig) :
  outcome (setup env baseDir cfg) = inr tt ->
  outcome (mount_playground env cfg) = inr tt /\
  trace (setup env baseDir cfg) =
    AppSet "trust proxy" "loopback" :: trace (create_server env cfg) ++
    trace (mount_cors cfg) ++
    Mount "use" None [BodyParserJson (body_limit cfg)] ::
    Mount "use" None [CookieParser] ::
    trace (mount_static env baseDir cfg) ++
    Mount "use" (Some graphqlPath)
          [GraphqlUpload (upload_limits cfg).1 (upload_limits cfg).2; GraphqlHandler] ::
    NewWsServer graphqlPath ::
    UseServer ContextFromUpgradeRequest ::
    Mount "use" None [PubSubHandler] ::
    trace (mount_handlers env cfg) ++
    trace (mount_playground env cfg).
Proof.
  unfold setup.
  destruct (create_server env cfg) as [t1 [e1|[]]]; [discriminate|].
  destruct (mount_cors cfg) as [t2 [e2|[]]]; [discriminate|].
  destruct (mount_static env baseDir cfg) as [t3 [e3|[]]]; [discriminate|].
  destruct (mount_handlers env cfg) as [t4 [e4|[]]]; [discriminate|].
  destruct (mount_playground env cfg) as [t5 [e5|[]]]; [discriminate|].
  intros _. split; [reflexivity|].
  simpl. repeat (rewrite <- ?app_assoc; simpl). rewrite ?app_nil_r. reflexivity.
Qed.

Lemma setup_is_setup (env : Env) (baseDir : string) (cfg : ServeConfig) :
  Forall (fun e => is_setup e = true) (trace (setup env baseDir cfg)).
Proof.
  unfold setup.
  repeat first
    [ apply Forall_trace_bind; [|intros ?]
    | apply Forall_trace_emit; reflexivity
    | apply plain_is_setup, create_server_plain
    | apply plain_is_setup, mount_cors_plain
    | apply plain_is_setup, mount_static_plain
    | apply plain_is_setup, mount_handlers_plain
    | apply mount_playground_setup ].
Qed.

(** The serving branch: the setup, then the bind if the setup went through. *)
Lemma listener_branch_ok (env : Env) (baseDir : string) (cfg : ServeConfig) :
  outcome (setup env baseDir cfg) = inr tt ->
  listener_branch env baseDir cfg =
    (trace (setup env baseDir cfg) ++ trace (listen env cfg), outcome (listen env cfg)).
Proof. intros H. unfold listener_branch. rewrite (bind_ok _ _ tt H). reflexivity. Qed.

Lemma listen_run (env : Env) (cfg : ServeConfig) :
  valid_port (port cfg) = true ->
  trace (listen env cfg) =
    Listen (port cfg) (hostname_of cfg) ::
    match listen_outcome env with
    | Listening =>
        if truthy_number (fork cfg) then []
        else [LogInfo (serving_prefix +:+ serverUrl cfg)]
    | ListenFailed e => [LogError (failure_prefix +:+ error_message e)]
    end.
Proof.
  intros Hp. unfold listen. rewrite Hp. destruct (listen_outcome env); [|reflexivity].
  destruct (truthy_number (fork cfg)); reflexivity.
Qed.

Lemma listen_completes (env : Env) (cfg : ServeConfig) :
  valid_port (port cfg) = true -> outcome (listen env cfg) = inr tt.
Proof.
  intros Hp. unfold listen. rewrite Hp. destruct (listen_outcome env); [|reflexivity].
  destruct (truthy_number (fork cfg)); reflexivity.
Qed.

Lemma listen_bad_port (env : Env) (cfg : ServeConfig) :
  valid_port (port cfg) = false -> listen env cfg = ([], inl (bad_port (port cfg))).
Proof. intros Hp. unfold listen. rewrite Hp. reflexivity. Qed.

Lemma listener_branch_failed (env : Env) (baseDir : string) (cfg : ServeConfig) (e : JsError) :
  outcome (setup env baseDir cfg) = inl e ->
  listener_branch env baseDir cfg = (trace (setup env baseDir cfg), inl e).
Proof. intros H. unfold listener_branch. apply bind_failed. exact H. Qed.

Lemma listener_branch_outcome (env : Env) (baseDir : string) (cfg : ServeConfig) :
  outcome (listener_branch env baseDir cfg) =
    match outcome (setup env baseDir cfg) with
    | inl e => inl e
    | inr _ => outcome (listen env cfg)
    end.
Proof.
  destruct (outcome (setup env baseDir cfg)) as [e|[]] eqn:H.
  - rewrite (listener_branch_failed _ _ _ _ H). reflexivity.
  - rewrite (listener_branch_ok _ _ _ H). reflexivity.
Qed.

(** A serving branch that completes: its setup went through and its port
    is one [listen] takes. *)
Lemma listener_branch_completed (env : Env) (baseDir : string) (cfg : ServeConfig) :
  outcome (listener_branch env baseDir cfg) = inr tt ->
  outcome (setup env baseDir cfg) = inr tt /\ valid_port (port cfg) = true.
Proof.
  rewrite listener_branch_outcome.
  destruct (outcome (setup env baseDir cfg)) as [e|[]]; [discriminate|].
  destruct (valid_port (port cfg)) eqn:Hp; [intros _; split; reflexivity|].
  rewrite (listen_bad_port _ _ Hp). discriminate.
Qed.

Lemma serveMesh_serving (env : Env) (baseDir : string) (cfg : ServeConfig) :
  serves env cfg = true ->
  serveMesh env baseDir cfg = listener_branch env baseDir cfg.
Proof.
  unfold serves, serveMesh. destruct (fork cfg) as [f|]; [|reflexivity].
  destruct (isMaster env && truthy_number (Some f)); [discriminate|reflexivity].
Qed.

Lemma serveMesh_master (env : Env) (baseDir : string) (cfg : ServeConfig) (f : Z) :
  isMaster env = true -> fork cfg = Some f -> f <> 0 ->
  serveMesh env baseDir cfg = master_branch env cfg f.
Proof.
  intros Hm Hf Hz. unfold serveMesh. rewrite Hf, Hm. simpl.
  destruct (Z.eqb_spec f 0); [contradiction|reflexivity].
Qed.

Lemma listen_spawns_none (env : Env) (cfg : ServeConfig) :
  List.filter is_fork (trace (listen env cfg)) = [].
Proof.
  destruct (valid_port (port cfg)) eqn:Hp; [|rewrite (listen_bad_port _ _ Hp); reflexivity].
  rewrite (listen_run _ _ Hp). destruct (listen_outcome env); [|reflexivity].
  destruct (truthy_number (fork cfg)); reflexivity.
Qed.

Lemma setup_filter_none (P : Event -> bool) (env : Env) (baseDir : string) (cfg : ServeConfig) :
  (forall e, is_setup e = true -> P e = false) ->
  List.filter P (trace (setup env baseDir cfg)) = [].
Proof. intros H. eapply filter_none; [apply setup_is_setup|exact H]. Qed.

Lemma is_setup_not_fork (e : Event) : is_setup e = true -> is_fork e = false.
Proof. destruct e; simpl; congruence. Qed.

Lemma is_setup_not_log (e : Event) : is_setup e = true -> is_log e = false.
Proof. destruct e; simpl; congruence. Qed.

Lemma is_setup_not_listen (e : Event) : is_setup e = true -> is_listen e = false.
Proof. destruct e; simpl; congruence. Qed.

Lemma listener_branch_spawns_none (env : Env) (baseDir : string) (cfg : ServeConfig) :
  spawned (trace (listener_branch env baseDir cfg)) = 0%nat.
Proof.
  unfold spawned. destruct (outcome (setup env baseDir cfg)) as [e|[]] eqn:H.
  - rewrite (listener_branch_failed _ _ _ _ H). simpl.
    rewrite (setup_filter_none _ _ _ _ is_setup_not_fork). reflexivity.
  - rewrite (listener_branch_ok _ _ _ H). simpl.
    rewrite List.filter_app, (setup_filter_none _ _ _ _ is_setup_not_fork), listen_spawns_none.
    reflexivity.
Qed.

(** ** Sample surroundings and configurations *)

(** ** Process fan-out *)

(** C1, as stated, fails: with [fork = 1] on a four-core master the
    process spawns four workers, binds nothing, and does not run as the
    serving branch does. *)
Lemma fork_one_counterexample :
  let env := quad_core true in
  let cfg := with_fork 1 bare_config in
  fork cfg = Some 1 /\ isMaster env = true /\
  spawned (trace (serveMesh env "/srv" cfg)) = 4%nat /\
  spawned (trace (serveMesh env "/srv" cfg)) <> 0%nat /\
  List.filter is_listen (trace (serveMesh env "/srv" cfg)) = [] /\
  serveMesh env "/srv" cfg <> listener_branch env "/srv" cfg.
Proof.
  simpl. repeat split; try reflexivity.
  - vm_compute. discriminate.
  - vm_compute. discriminate.
Qed.

(** C1, amended: with [fork = 1] the master spawns one worker for each
    available CPU core, logs once, and serves nothing itself; with [fork]
    absent or [0] the process spawns nothing and runs the serving branch. *)
Theorem fork_one_spawns_per_core (env : Env) (baseDir : string) (cfg : ServeConfig) :
  (fork cfg = Some 1 -> isMaster env = true ->
     serveMesh env baseDir cfg =
       (replicate (cpus_length env) ClusterFork ++
        [LogInfo (serving_prefix +:+ serverUrl cfg +:+ " in " +:+
                  pretty (Z.of_nat (cpus_length env)) +:+ " forks")],
        inr tt) /\
     spawned (trace (serveMesh env baseDir cfg)) = cpus_length env /\
     List.filter is_setup (trace (serveMesh env baseDir cfg)) = [] /\
     List.filter is_listen (trace (serveMesh env baseDir cfg)) = []) /\
  (fork cfg = None \/ fork cfg = Some 0 ->
     serveMesh env baseDir cfg = listener_branch env baseDir cfg /\
     spawned (trace (serveMesh env baseDir cfg)) = 0%nat).
Proof.
  split.
  - intros Hf Hm.
    rewrite (serveMesh_master env baseDir cfg 1 Hm Hf) by lia.
    rewrite master_branch_run.
    change (forkNum env 1) with (Z.of_nat (cpus_length env)).
    rewrite Nat2Z.id. split; [reflexivity|].
    unfold spawned. simpl. rewrite !List.filter_app, filter_fork_replicate. simpl.
    rewrite app_nil_r, length_replicate. split; [reflexivity|].
    split; (induction (cpus_length env) as [|n IH]; [reflexivity|exact IH]).
  - intros Hf.
    assert (serves env cfg = true) as Hs.
    { unfold serves. destruct Hf as [-> | ->]; simpl; apply negb_true_iff, andb_false_r. }
    rewrite (serveMesh_serving _ _ _ Hs). split; [reflexivity|].
    apply listener_branch_spawns_none.
Qed.

Lemma fork_one_spawns_per_core_witness :
  let env := quad_core true in
  let cfg := with_fork 1 bare_config in
  fork cfg = Some 1 /\ isMaster env = true /\
  spawned (trace (serveMesh env "/srv" cfg)) = 4%nat /\
  spawned (trace (serveMesh env "/srv" bare_config)) = 0%nat.
Proof.
  simpl. split; [reflexivity|]. split; [reflexivity|]. split.
  - exact (proj1 (proj2 (proj1 (fork_one_spawns_per_core (quad_core true) "/srv"
                                  (with_fork 1 bare_config)) eq_refl eq_refl))).
  - exact (proj2 (proj2 (fork_one_spawns_per_core (quad_core true) "/srv" bare_config)
                    (or_introl eq_refl))).
Defined.

(** ** Dynamic handlers *)

Example mount_verb_upper : mount_verb (Some "GET") = inr "get".
Proof. reflexivity. Qed.

Example mount_verb_mixed : mount_verb (Some "Post") = inr "post".
Proof. reflexivity. Qed.

Example mount_verb_empty : mount_verb (Some "") = inr "use".
Proof. reflexivity. Qed.

(** A declared method selects the mount by its lower-case form alone. *)
Lemma mount_verb_case_insensitive (m1 m2 : string) :
  toLowerCase m1 = toLowerCase m2 -> mount_verb (Some m1) = mount_verb (Some m2).
Proof. intros H. unfold mount_verb. rewrite H. reflexivity. Qed.

(** A dynamic entry with a method, whose module loads, is mounted at its
    path under the lower-cased method, or by [use] when the method is the
    empty string, provided the application has a member of that name. *)
Lemma dynamic_handler_mount (env : Env) (p m hd : string) (fn : HandlerFn) :
  loadFromModuleExportExpression env hd = inr fn ->
  app_member env (if String.eqb (toLowerCase m) "" then "use" else toLowerCase m) = true ->
  mount_of env (DynamicHandler p (Some m) hd) =
    Some (Mount (if String.eqb (toLowerCase m) "" then "use" else toLowerCase m)
                (Some p) [Dynamic fn]).
Proof. intros H Hm. simpl. unfold dynamic_mount. simpl. rewrite H, Hm. reflexivity. Qed.

(** Without a method the callback throws before it mounts anything. *)
Lemma resume_load_without_method (env : Env) (p : PendingLoad) :
  pending_method p = None ->
  trace (resume_load env p) = [] /\ exists e, outcome (resume_load env p) = inl e.
Proof.
  intros H. unfold resume_load. rewrite H.
  destruct (loadFromModuleExportExpression env (pending_handler p)) as [e|fn]; simpl.
  - split; [reflexivity|]. exists e. reflexivity.
  - split; [reflexivity|]. eexists. reflexivity.
Qed.

(** C3, at the failing input: a dynamic handler entry that declares no
    method.  Its module loads, then reading [toLowerCase] of the absent
    method throws: [serveMesh] rejects with a TypeError, the handler is
    mounted under no verb at all, and the listener is never bound. *)
Theorem dynamic_handler_without_method_raises :
  let env := quad_core false in
  let cfg := with_handlers [DynamicHandler "/hook" None "./hook.js"] bare_config in
  mount_of env (DynamicHandler "/hook" None "./hook.js") = None /\
  outcome (serveMesh env "/srv" cfg) =
    inl (TypeError "Cannot read property 'toLowerCase' of undefined") /\
  trace (mount_handlers env cfg) = [] /\
  List.filter is_listen (trace (serveMesh env "/srv" cfg)) = [].
Proof. simpl. repeat split; reflexivity. Qed.

(** ** Mounting order of the configured handlers *)

(** C4, as stated, fails: a dynamic handler listed before a webhook bridge
    on the same path is registered after it. *)
Lemma configuration_order_counterexample :
  let env := quad_core false in
  let hs := [DynamicHandler "/a" (Some "GET") "./a.js"; WebhookBridge "/a" "topic" None] in
  let cfg := with_handlers hs bare_config in
  let dynamic := Mount "get" (Some "/a") [Dynamic {| resolved_from := "./a.js" |}] in
  let bridge := Mount "use" (Some "/a") [Bridge "topic" None] in
  outcome (serveMesh env "/srv" cfg) = inr tt /\
  omap (mount_of env) hs = [dynamic; bridge] /\
  trace (mount_handlers env cfg) = [bridge; dynamic] /\
  trace (mount_handlers env cfg) <> omap (mount_of env) hs.
Proof.
  simpl. split; [reflexivity|]. split; [reflexivity|]. split; [reflexivity|].
  vm_compute. discriminate.
Qed.

Lemma omap_mount_of_bridges (env : Env) (hs : list HandlerEntry) :
  omap (mount_of env) (List.filter is_bridge hs) = omap bridge_mount hs.
Proof.
  induction hs as [|h hs IH]; [reflexivity|].
  destruct h; simpl; [exact IH|]. f_equal. exact IH.
Qed.

Lemma omap_mount_of_dynamics (env : Env) (hs : list HandlerEntry) :
  omap (mount_of env) (List.filter (fun h => negb (is_bridge h)) hs) =
  omap (dynamic_mount env) (omap load_of hs).
Proof.
  induction hs as [|h hs IH]; [reflexivity|].
  destruct h as [p m hd|p t pl]; simpl; [|exact IH].
  destruct (dynamic_mount env _); [f_equal|]; exact IH.
Qed.

(** C4, amended: the webhook bridges are mounted in configuration order
    and ahead of every dynamic handler; the dynamic handlers follow, each
    once, in the order their module loads settle; when the loads settle
    in the order they were started, the whole order is the configuration
    order of the bridges followed by that of the dynamic handlers. *)
Theorem handlers_registration_order (env : Env) (cfg : ServeConfig) (hs : list HandlerEntry) :
  handlers cfg = Some hs ->
  trace (mount_handlers env cfg) =
    omap bridge_mount hs ++ omap (dynamic_mount env) (settle_order env (omap load_of hs)) /\
  settle_order env (omap load_of hs) ≡ₚ omap load_of hs /\
  ((forall p q, p ∈ omap load_of hs -> q ∈ omap load_of hs ->
      load_latency env (pending_handler p) = load_latency env (pending_handler q)) ->
   trace (mount_handlers env cfg) =
     omap (mount_of env)
          (List.filter is_bridge hs ++ List.filter (fun h => negb (is_bridge h)) hs)).
Proof.
  intros H. split; [exact (mount_handlers_trace env cfg hs H)|].
  split; [apply settle_order_perm|].
  intros Hlat. rewrite (mount_handlers_trace env cfg hs H).
  rewrite (settle_order_fifo env _ Hlat), omap_app.
  rewrite omap_mount_of_bridges, omap_mount_of_dynamics. reflexivity.
Qed.

Lemma handlers_registration_order_witness :
  let env := quad_core false in
  let hs := [DynamicHandler "/a" (Some "GET") "./a.js"; WebhookBridge "/b" "topic" None;
             DynamicHandler "/c" (Some "post") "./c.js"] in
  handlers (with_handlers hs bare_config) = Some hs /\
  trace (mount_handlers env (with_handlers hs bare_config)) =
    [Mount "use" (Some "/b") [Bridge "topic" None];
     Mount "get" (Some "/a") [Dynamic {| resolved_from := "./a.js" |}];
     Mount "post" (Some "/c") [Dynamic {| resolved_from := "./c.js" |}]].
Proof.
  simpl. split; [reflexivity|].
  exact (proj1 (handlers_registration_order (quad_core false)
                  (with_handlers [DynamicHandler "/a" (Some "GET") "./a.js";
                                  WebhookBridge "/b" "topic" None;
                                  DynamicHandler "/c" (Some "post") "./c.js"] bare_config)
                  _ eq_refl)).
Defined.

(** ** The webhook bridge *)

Lemma bridge_mounted (hs : list HandlerEntry) (p topic : string) (payload : option string) :
  WebhookBridge p topic payload ∈ hs ->
  Mount "use" (Some p) [Bridge topic payload] ∈ mounted (map_pass hs).
Proof.
  intros H. rewrite map_pass_mounted. apply list_elem_of_omap.
  exists (WebhookBridge p topic payload). split; [exact H|reflexivity].
Qed.

(** C5: a webhook bridge is mounted with [use], for every method.  On a
    request its handler publishes, under the configured topic, the body,
    or what [get] finds in the body at the configured path; it publishes
    also when that is [undefined]; then it ends the response, with the
    status left at 200 and nothing written.  It builds no context and
    executes nothing, and neither reads nor changes the subscribers. *)
Theorem bridge_publishes_and_acknowledges
  (get : JsValue -> string -> JsValue) (hs : list HandlerEntry)
  (p topic : string) (payload : option string) (req : Request) (bus : PubSub) :
  let calls := bridge_handler get topic payload req in
  let published_value :=
    match payload with
    | Some q => if String.eqb q "" then body req else get (body req) q
    | None => body req
    end in
  (WebhookBridge p topic payload ∈ hs ->
     Mount "use" (Some p) [Bridge topic payload] ∈ mounted (map_pass hs)) /\
  calls = [PubsubPublish topic published_value; ResEnd] /\
  published (foldl deliver bus calls) = published bus ++ [(topic, published_value)] /\
  subscribers (foldl deliver bus calls) = subscribers bus /\
  foldl respond fresh_response calls =
    {| statusCode := 200; written := EmptyString; ended := true |} /\
  List.filter is_execution calls = [] /\
  (forall q, payload = Some q -> q <> EmptyString -> get (body req) q = JUndefined ->
     published (foldl deliver bus calls) = published bus ++ [(topic, JUndefined)]).
Proof.
  simpl.
  assert (bridge_payload get payload req =
          match payload with
          | Some q => if String.eqb q "" then body req else get (body req) q
          | None => body req
          end) as Hv.
  { unfold bridge_payload. destruct payload as [q|]; [|reflexivity].
    simpl. destruct (String.eqb q ""); reflexivity. }
  split; [apply bridge_mounted|].
  unfold bridge_handler. rewrite Hv. simpl.
  repeat split; try reflexivity.
  intros q -> Hq Hu. destruct (String.eqb_spec q ""); [contradiction|].
  rewrite Hu. reflexivity.
Qed.

Lemma bridge_publishes_and_acknowledges_witness :
  WebhookBridge "/webhook" "events" (Some "event.missing") ∈
    [WebhookBridge "/webhook" "events" (Some "event.missing")] /\
  Lodash.get (body event_request) "event.missing" = JUndefined /\
  Mount "use" (Some "/webhook") [Bridge "events" (Some "event.missing")] ∈
    mounted (map_pass [WebhookBridge "/webhook" "events" (Some "event.missing")]) /\
  published (foldl deliver idle_bus
               (bridge_handler Lodash.get "events" (Some "event.missing") event_request)) =
    [("events", JUndefined)].
Proof.
  pose proof (bridge_publishes_and_acknowledges Lodash.get
                [WebhookBridge "/webhook" "events" (Some "event.missing")]
                "/webhook" "events" (Some "event.missing") event_request idle_bus) as H.
  simpl in H. destruct H as (Hm & _ & _ & _ & _ & _ & Hu).
  assert (WebhookBridge "/webhook" "events" (Some "event.missing") ∈
            [WebhookBridge "/webhook" "events" (Some "event.missing")]) as Hin
    by (apply elem_of_cons; left; reflexivity).
  split; [exact Hin|]. split; [reflexivity|]. split; [exact (Hm Hin)|].
  apply (Hu "event.missing" eq_refl); [discriminate|reflexivity].
Defined.

(** With payload path [event] and the body [{"event": {"id": 42}}] the bridge
    publishes [{"id": 42}] and acknowledges, whoever listens. *)
Example bridge_example (listeners : list (string * nat)) :
  let bus := {| subscribers := listeners; published := [] |} in
  let calls := bridge_handler Lodash.get "events" (Some "event") event_request in
  published (foldl deliver bus calls) = [("events", JObj [("id", JNum 42)])] /\
  ended (foldl respond fresh_response calls) = true.
Proof. split; reflexivity. Qed.

(** ** Contexts of subscription operations *)

(** The [context] option handed to graphql-ws is the function that calls
    the context builder on the upgrade request. *)
Lemma context_option_registered (env : Env) (baseDir : string) (cfg : ServeConfig) :
  outcome (setup env baseDir cfg) = inr tt ->
  UseServer ContextFromUpgradeRequest ∈ trace (setup env baseDir cfg).
Proof. intros H. destruct (setup_ok _ _ _ H) as [_ ->]. find_event. Qed.

(** C6, as stated, fails: on an acknowledged connection that subscribes
    twice the context builder is called twice and the two operations run
    with two different contexts; on a connection that only shakes hands
    it is not called at all. *)
Lemma context_per_connection_counterexample :
  let run := connection GraphqlWs.dispatch ContextFromUpgradeRequest upgrade_request
                        GraphqlWs.opened 0 in
  let twice := run [ConnectionInit; Subscribe "1"; Subscribe "2"] in
  let idle := run [ConnectionInit] in
  context_builds twice = [upgrade_request; upgrade_request] /\
  length (context_builds twice) <> 1%nat /\
  subscription_contexts twice = [("1", 0%nat); ("2", 1%nat)] /\
  context_builds idle = [].
Proof. simpl. repeat split; try reflexivity. discriminate. Qed.

(** A subscribe message before the acknowledgement, and one on an id in
    use, close the connection and build no context. *)
Example unacknowledged_subscribe :
  context_builds (connection GraphqlWs.dispatch ContextFromUpgradeRequest upgrade_request
                             GraphqlWs.opened 0 [Subscribe "1"; ConnectionInit; Subscribe "2"])
  = [].
Proof. reflexivity. Qed.

Example subscribe_on_an_id_in_use :
  context_builds (connection GraphqlWs.dispatch ContextFromUpgradeRequest upgrade_request
                             GraphqlWs.opened 0
                             [ConnectionInit; Subscribe "1"; Subscribe "1"; Subscribe "2"])
  = [upgrade_request].
Proof. reflexivity. Qed.

(** C6, amended: whatever the subscription server decides on each
    message, the context builder is called once for each operation the
    server starts for a subscribe message, each time with the upgrade
    request of the connection, and the operation runs with the context
    built for it; it is called for no other message, the handshake
    included. *)
Theorem context_per_operation (Session : Type)
  (dispatch : Session -> ClientMessage -> Session * bool)
  (upgrade : Request) (s : Session) (built : nat) (msgs : list ClientMessage) :
  let calls := connection dispatch ContextFromUpgradeRequest upgrade s built msgs in
  let ids := started dispatch s msgs in
  context_builds calls = replicate (length ids) upgrade /\
  subscription_contexts calls = zip ids (seq built (length ids)) /\
  Forall (fun id => Subscribe id ∈ msgs) ids /\
  (forall id, connection dispatch ContextFromUpgradeRequest upgrade s built [ConnectionInit] = [] /\
              connection dispatch ContextFromUpgradeRequest upgrade s built [Complete id] = []).
Proof.
  simpl. split; [|split; [|split]].
  - revert s built. induction msgs as [|msg rest IH]; intros s built; [reflexivity|].
    simpl. destruct (dispatch s msg) as [s' start].
    destruct msg as [|id|id]; simpl; [apply IH| |apply IH].
    destruct start; simpl; [f_equal|]; apply IH.
  - revert s built. induction msgs as [|msg rest IH]; intros s built; [reflexivity|].
    simpl. destruct (dispatch s msg) as [s' start].
    destruct msg as [|id|id]; simpl; [apply IH| |apply IH].
    destruct start; simpl; [f_equal|]; apply IH.
  - revert s. induction msgs as [|msg rest IH]; intros s; [constructor|].
    simpl. destruct (dispatch s msg) as [s' start].
    assert (Forall (fun id => Subscribe id ∈ msg :: rest) (started dispatch s' rest)) as Hrest.
    { eapply Forall_impl; [apply IH|]. intros id Hid. apply elem_of_cons. right. exact Hid. }
    destruct msg as [|id|id]; [exact Hrest| |exact Hrest].
    destruct start; [|exact Hrest].
    constructor; [apply elem_of_cons; left; reflexivity|exact Hrest].
  - intros id. simpl.
    destruct (dispatch s ConnectionInit) as [s1 b1].
    destruct (dispatch s (Complete id)) as [s2 b2]. split; reflexivity.
Qed.

(** ** The playground *)

Lemma load_default_query_ok (env : Env) (cfg : ServeConfig) (dq : option string) :
  outcome (load_default_query env cfg) = inr dq ->
  load_default_query env cfg = ([], inr (default_query env cfg)).
Proof.
  unfold load_default_query, default_query.
  destruct (exampleQuery cfg) as [q|]; [|reflexivity].
  destruct (truthy_string (Some q)); [|reflexivity].
  destruct (loadDocuments env q); [discriminate|reflexivity].
Qed.

Lemma mount_playground_ok (env : Env) (cfg : ServeConfig) :
  outcome (mount_playground env cfg) = inr tt ->
  trace (mount_playground env cfg) =
    if playground_enabled env cfg then
      (if truthy_string (staticFiles cfg) then []
       else [Mount "get" (Some "/") [playgroundMiddleware env cfg]]) ++
      [Mount "get" (Some graphqlPath) [playgroundMiddleware env cfg];
       Mount "use" None [Static (join env [dirname env; "./public"])]]
    else [].
Proof.
  unfold mount_playground.
  destruct (playground_enabled env cfg); [|reflexivity].
  intros H. apply bind_outcome_ok in H as (dq & Hdq & _).
  rewrite (load_default_query_ok _ _ _ Hdq). unfold playgroundMiddleware.
  destruct (truthy_string (staticFiles cfg)); reflexivity.
Qed.

Lemma plain_not_playground (e : Event) :
  is_plain_setup e = true -> mounts_playground e = false.
Proof.
  unfold is_plain_setup. intros H. apply andb_prop in H as [_ H].
  apply negb_true_iff. exact H.
Qed.

Lemma playground_routes_setup (env : Env) (baseDir : string) (cfg : ServeConfig) :
  outcome (setup env baseDir cfg) = inr tt ->
  playground_routes (trace (setup env baseDir cfg)) =
    playground_routes (trace (mount_playground env cfg)).
Proof.
  intros H. destruct (setup_ok _ _ _ H) as [_ ->].
  unfold playground_routes. simpl.
  rewrite !List.filter_app. simpl. rewrite !List.filter_app. simpl.
  rewrite !List.filter_app.
  rewrite (filter_none _ _ _ (create_server_plain env cfg) plain_not_playground).
  rewrite (filter_none _ _ _ (mount_cors_plain cfg) plain_not_playground).
  rewrite (filter_none _ _ _ (mount_static_plain env baseDir cfg) plain_not_playground).
  rewrite (filter_none _ _ _ (mount_handlers_plain env cfg) plain_not_playground).
  reflexivity.
Qed.

Lemma playground_routes_run (env : Env) (baseDir : string) (cfg : ServeConfig) :
  serves env cfg = true ->
  outcome (serveMesh env baseDir cfg) = inr tt ->
  playground_routes (trace (serveMesh env baseDir cfg)) =
    if playground_enabled env cfg then
      (if truthy_string (staticFiles cfg) then []
       else [Mount "get" (Some "/") [playgroundMiddleware env cfg]]) ++
      [Mount "get" (Some graphqlPath) [playgroundMiddleware env cfg]]
    else [].
Proof.
  intros Hs. rewrite (serveMesh_serving _ _ _ Hs). intros Hdone.
  destruct (listener_branch_completed _ _ _ Hdone) as [Hok Hport].
  rewrite (listener_branch_ok _ _ _ Hok). simpl.
  unfold playground_routes. rewrite List.filter_app.
  fold (playground_routes (trace (setup env baseDir cfg))).
  rewrite (playground_routes_setup _ _ _ Hok).
  rewrite (mount_playground_ok _ _ (proj1 (setup_ok _ _ _ Hok))).
  assert (List.filter mounts_playground (trace (listen env cfg)) = []) as ->.
  { rewrite (listen_run _ _ Hport). destruct (listen_outcome env); [|reflexivity].
    destruct (truthy_number (fork cfg)); reflexivity. }
  rewrite app_nil_r. unfold playground_routes.
  destruct (playground_enabled env cfg); [|reflexivity].
  destruct (truthy_string (staticFiles cfg)); reflexivity.
Qed.

Lemma playground_enabled_spec (env : Env) (cfg : ServeConfig) :
  playground_enabled env cfg = true <->
  playground cfg = Some true \/ (playground cfg = None /\ ~ production env).
Proof.
  unfold playground_enabled, production.
  destruct (playground cfg) as [[|]|].
  - split; [left; reflexivity|reflexivity].
  - split; [discriminate|]. intros [H|[H _]]; discriminate.
  - destruct (NODE_ENV env) as [v|].
    + rewrite negb_true_iff. split.
      * intros H. right. split; [reflexivity|].
        intros (w & Hw & Hp). injection Hw as <-.
        rewrite Hp in H. discriminate.
      * intros [H|[_ H]]; [discriminate|].
        destruct (String.eqb_spec (toLowerCase v) "production") as [Hp|]; [|reflexivity].
        exfalso. apply H. exists v. split; [reflexivity|exact Hp].
    + split; [|reflexivity]. intros _. right. split; [reflexivity|].
      intros (w & Hw & _). discriminate.
Qed.

(** C7: in a serving process whose setup goes through, playground routes
    are mounted exactly when the flag is set to true, or the flag is
    unset and [NODE_ENV] does not say production; a flag that is present
    decides alone. *)
Theorem playground_mounted_iff (env : Env) (baseDir : string) (cfg : ServeConfig) :
  serves env cfg = true ->
  outcome (serveMesh env baseDir cfg) = inr tt ->
  (playground_routes (trace (serveMesh env baseDir cfg)) <> [] <->
   playground cfg = Some true \/ (playground cfg = None /\ ~ production env)) /\
  (forall flag, playground cfg = Some flag ->
     (playground_routes (trace (serveMesh env baseDir cfg)) <> [] <-> flag = true)).
Proof.
  intros Hs Hok.
  assert (playground_routes (trace (serveMesh env baseDir cfg)) <> [] <->
          playground_enabled env cfg = true) as Hroutes.
  { rewrite (playground_routes_run _ _ _ Hs Hok).
    destruct (playground_enabled env cfg).
    - split; [reflexivity|]. intros _.
      destruct (truthy_string (staticFiles cfg)); discriminate.
    - split; [intros H; contradiction|discriminate]. }
  split.
  - rewrite Hroutes. apply playground_enabled_spec.
  - intros flag Hflag. rewrite Hroutes. unfold playground_enabled. rewrite Hflag.
    reflexivity.
Qed.

Lemma playground_mounted_iff_witness :
  let env := quad_core_in "PRODUCTION" in
  serves env bare_config = true /\
  outcome (serveMesh env "/srv" bare_config) = inr tt /\
  production env /\
  playground_routes (trace (serveMesh env "/srv" bare_config)) = [] /\
  playground_routes (trace (serveMesh env "/srv" (with_playground true bare_config))) <> [].
Proof.
  simpl. split; [reflexivity|]. split; [reflexivity|].
  assert (production (quad_core_in "PRODUCTION")) as Hp.
  { exists "PRODUCTION". split; reflexivity. }
  split; [exact Hp|]. split.
  - destruct (playground_routes (trace (serveMesh (quad_core_in "PRODUCTION") "/srv" bare_config)))
      as [|e t] eqn:Hr; [reflexivity|].
    exfalso.
    destruct (proj1 (proj1 (playground_mounted_iff (quad_core_in "PRODUCTION") "/srv"
                              bare_config eq_refl eq_refl))) as [H|[_ H]].
    + rewrite Hr. discriminate.
    + discriminate H.
    + exact (H Hp).
  - apply (proj2 (playground_mounted_iff (quad_core_in "PRODUCTION") "/srv"
                    (with_playground true bare_config) eq_refl eq_refl) true eq_refl).
    reflexivity.
Defined.

(** C8: in a serving process whose setup goes through with the
    playground enabled: when a static-assets root is configured, the
    static middleware is mounted and the only playground route is
    [GET /graphql]; when none is configured, the playground routes are
    [GET /] and [GET /graphql]. *)
Theorem playground_leaves_root_to_static (env : Env) (baseDir : string) (cfg : ServeConfig) :
  serves env cfg = true ->
  outcome (serveMesh env baseDir cfg) = inr tt ->
  playground_enabled env cfg = true ->
  let run := serveMesh env baseDir cfg in
  let middleware := playgroundMiddleware env cfg in
  (forall dir, staticFiles cfg = Some dir -> dir <> EmptyString ->
     playground_routes (trace run) = [Mount "get" (Some "/graphql") [middleware]] /\
     (Mount "get" (Some "/") [middleware] ∉ trace run) /\
     Mount "use" None [Static dir] ∈ trace run) /\
  (staticFiles cfg = None \/ staticFiles cfg = Some EmptyString ->
     playground_routes (trace run) =
       [Mount "get" (Some "/") [middleware]; Mount "get" (Some "/graphql") [middleware]] /\
     Mount "get" (Some "/") [middleware] ∈ trace run /\
     Mount "get" (Some "/graphql") [middleware] ∈ trace run).
Proof.
  intros Hs Hok Hen. simpl.
  pose proof (playground_routes_run _ _ _ Hs Hok) as Hr. rewrite Hen in Hr.
  assert (forall e, e ∈ playground_routes (trace (serveMesh env baseDir cfg)) ->
                    e ∈ trace (serveMesh env baseDir cfg)) as Hsub.
  { intros e He. apply list_elem_of_In, List.filter_In in He as [He _].
    apply list_elem_of_In. exact He. }
  split.
  - intros dir Hdir Hne.
    assert (truthy_string (staticFiles cfg) = true) as Ht.
    { rewrite Hdir. simpl. destruct (String.eqb_spec dir ""); [contradiction|reflexivity]. }
    rewrite Ht in Hr. simpl in Hr. split; [exact Hr|]. split.
    + intros Hin.
      assert (Mount "get" (Some "/") [playgroundMiddleware env cfg] ∈
                playground_routes (trace (serveMesh env baseDir cfg))) as Hp.
      { apply list_elem_of_In, List.filter_In. split; [apply list_elem_of_In, Hin|reflexivity]. }
      rewrite Hr in Hp. apply list_elem_of_singleton in Hp. discriminate Hp.
    + revert Hok. rewrite (serveMesh_serving _ _ _ Hs). intros Hdone.
  destruct (listener_branch_completed _ _ _ Hdone) as [Hok Hport].
      rewrite (listener_branch_ok _ _ _ Hok). simpl.
      destruct (setup_ok _ _ _ Hok) as [_ ->].
      apply elem_of_app. left. apply elem_of_cons. right.
      do 2 (apply elem_of_app; right).
      do 2 (apply elem_of_cons; right).
      apply elem_of_app. left. unfold mount_static.
      rewrite Hdir in Ht |- *. rewrite Ht. destruct (pathExists env _); simpl; apply elem_of_cons; left; reflexivity.
  - intros Hnone.
    assert (truthy_string (staticFiles cfg) = false) as Ht.
    { destruct Hnone as [-> | ->]; reflexivity. }
    rewrite Ht in Hr. simpl in Hr. split; [exact Hr|].
    split; apply Hsub; rewrite Hr.
    + apply elem_of_cons. left. reflexivity.
    + apply elem_of_cons. right. apply elem_of_cons. left. reflexivity.
Qed.

Lemma playground_leaves_root_to_static_witness :
  let env := quad_core false in
  let cfg := with_staticFiles "public" bare_config in
  serves env cfg = true /\
  outcome (serveMesh env "/srv" cfg) = inr tt /\
  playground_enabled env cfg = true /\
  playground_routes (trace (serveMesh env "/srv" cfg)) =
    [Mount "get" (Some "/graphql") [Playground None "/graphql"]] /\
  playground_routes (trace (serveMesh env "/srv" bare_config)) =
    [Mount "get" (Some "/") [Playground None "/graphql"];
     Mount "get" (Some "/graphql") [Playground None "/graphql"]].
Proof.
  simpl. split; [reflexivity|]. split; [reflexivity|]. split; [reflexivity|]. split.
  - refine (proj1 (proj1 (playground_leaves_root_to_static (quad_core false) "/srv"
                            (with_staticFiles "public" bare_config)
                            eq_refl eq_refl eq_refl) "public" eq_refl _)).
    discriminate.
  - exact (proj1 (proj2 (playground_leaves_root_to_static (quad_core false) "/srv"
                           bare_config eq_refl eq_refl eq_refl) (or_introl eq_refl))).
Defined.

(** ** Binding *)

Lemma serves_false (env : Env) (cfg : ServeConfig) :
  serves env cfg = false ->
  exists f, isMaster env = true /\ fork cfg = Some f /\ f <> 0.
Proof.
  unfold serves. rewrite negb_false_iff, andb_true_iff. intros [Hm Hf].
  destruct (fork cfg) as [f|]; [|discriminate]. exists f.
  split; [exact Hm|]. split; [reflexivity|].
  simpl in Hf. intros ->. discriminate.
Qed.

Lemma master_binds_nothing (env : Env) (cfg : ServeConfig) (f : Z) :
  List.filter is_listen (trace (master_branch env cfg f)) = [].
Proof.
  rewrite master_branch_run. simpl. rewrite List.filter_app. simpl. rewrite app_nil_r.
  induction (Z.to_nat (forkNum env f)) as [|n IH]; [reflexivity|exact IH].
Qed.

(** A run in which a bind was attempted is a serving run whose setup
    went through and whose port [listen] took. *)
Lemma bind_attempted (env : Env) (baseDir : string) (cfg : ServeConfig) :
  List.filter is_listen (trace (serveMesh env baseDir cfg)) <> [] ->
  outcome (setup env baseDir cfg) = inr tt /\
  valid_port (port cfg) = true /\
  serveMesh env baseDir cfg =
    (trace (setup env baseDir cfg) ++ trace (listen env cfg), inr tt).
Proof.
  intros H. destruct (serves env cfg) eqn:Hs.
  - rewrite (serveMesh_serving _ _ _ Hs) in *.
    destruct (outcome (setup env baseDir cfg)) as [e|[]] eqn:Ho.
    + exfalso. apply H. rewrite (listener_branch_failed _ _ _ _ Ho). simpl.
      apply setup_filter_none, is_setup_not_listen.
    + rewrite (listener_branch_ok _ _ _ Ho) in *. simpl in H.
      destruct (valid_port (port cfg)) eqn:Hp.
      * rewrite (listen_completes _ _ Hp). repeat split; reflexivity.
      * exfalso. apply H. rewrite (listen_bad_port _ _ Hp). simpl.
        rewrite app_nil_r. apply setup_filter_none, is_setup_not_listen.
  - exfalso. apply H. destruct (serves_false _ _ Hs) as (f & Hm & Hf & Hz).
    rewrite (serveMesh_master _ baseDir _ f Hm Hf Hz). apply master_binds_nothing.
Qed.

(** C9, as stated, fails.  With port 70000 [listen] refuses the port:
    the run rejects after the whole setup, playground routes included,
    and nothing is logged.  And a master in fork mode logs its serving
    line though it binds nothing, also where every bind fails. *)
Lemma bind_failure_counterexample :
  let worker := serveMesh (quad_core false) "/srv" (with_port 70000 bare_config) in
  let master := serveMesh (machine true None (ListenFailed port_in_use)) "/srv"
                          (with_fork 2 bare_config) in
  outcome worker =
    inl (RangeError "options.port should be >= 0 and < 65536. Received 70000.") /\
  logs (trace worker) = [] /\
  playground_routes (trace worker) <> [] /\
  List.filter is_listen (trace master) = [] /\
  logs (trace master) =
    [LogInfo "🕸️ => Serving GraphQL Mesh: http://localhost:4000/graphql in 2 forks"].
Proof.
  simpl. repeat split; try reflexivity. vm_compute. discriminate.
Qed.

(** C9, amended: whenever the bind a process attempts fails through the
    ['error'] event of the server, that process logs exactly one line,
    the error line carrying the message of the cause, and does not write
    the serving line.  A port outside 0..65535 is refused by [listen]
    itself: the run then rejects with that error once the setup is done,
    and logs nothing.  A master in fork mode attempts no bind and logs
    its serving line whatever becomes of the binds. *)
Theorem bind_failure_is_logged (env : Env) (baseDir : string) (cfg : ServeConfig) :
  let t := trace (serveMesh env baseDir cfg) in
  (forall e, List.filter is_listen t <> [] ->
             listen_outcome env = ListenFailed e ->
             logs t = [LogError ("Unable to start GraphQL-Mesh: " +:+ error_message e)] /\
             forall message, LogInfo message ∉ t) /\
  (serves env cfg = true ->
   outcome (setup env baseDir cfg) = inr tt ->
   port cfg < 0 \/ 65535 < port cfg ->
   serveMesh env baseDir cfg =
     (trace (setup env baseDir cfg),
      inl (RangeError ("options.port should be >= 0 and < 65536. Received " +:+
                       pretty (port cfg) +:+ "."))) /\
   logs t = [] /\
   List.filter is_listen t = []) /\
  (forall f, isMaster env = true -> fork cfg = Some f -> f <> 0 ->
             List.filter is_listen t = [] /\
             logs t =
               [LogInfo ("🕸️ => Serving GraphQL Mesh: " +:+ serverUrl cfg +:+ " in " +:+
                         pretty (if 1 <? f then f else Z.of_nat (cpus_length env)) +:+
                         " forks")]).
Proof.
  simpl. split; [|split].
  - intros e Hb He. destruct (bind_attempted _ _ _ Hb) as (_ & Hport & Hrun).
    assert (logs (trace (serveMesh env baseDir cfg)) =
              [LogError ("Unable to start GraphQL-Mesh: " +:+ error_message e)]) as Hlogs.
    { rewrite Hrun. unfold logs. simpl.
      rewrite List.filter_app, (setup_filter_none _ _ _ _ is_setup_not_log).
      rewrite (listen_run _ _ Hport), He. reflexivity. }
    split; [exact Hlogs|].
    intros message Hin.
    assert (LogInfo message ∈ logs (trace (serveMesh env baseDir cfg))) as Hl.
    { apply list_elem_of_In, List.filter_In. split; [apply list_elem_of_In, Hin|reflexivity]. }
    rewrite Hlogs in Hl. apply list_elem_of_singleton in Hl. discriminate Hl.
  - intros Hs Hok Hrange.
    assert (valid_port (port cfg) = false) as Hp.
    { unfold valid_port. apply andb_false_iff.
      destruct Hrange; [left; apply Z.leb_gt|right; apply Z.leb_gt]; assumption. }
    rewrite (serveMesh_serving _ _ _ Hs), (listener_branch_ok _ _ _ Hok).
    rewrite (listen_bad_port _ _ Hp). simpl. rewrite app_nil_r.
    split; [reflexivity|]. unfold logs.
    rewrite (setup_filter_none _ _ _ _ is_setup_not_log).
    rewrite (setup_filter_none _ _ _ _ is_setup_not_listen). split; reflexivity.
  - intros f Hm Hf Hz.
    rewrite (serveMesh_master _ baseDir _ f Hm Hf Hz).
    split; [apply master_binds_nothing|].
    rewrite master_branch_run. unfold logs, trace, forkNum. cbn [fst].
    rewrite List.filter_app, filter_log_replicate. reflexivity.
Qed.

Lemma bind_failure_is_logged_witness :
  List.filter is_listen (trace (serveMesh quad_core_port_taken "/srv" bare_config)) <> [] /\
  listen_outcome quad_core_port_taken = ListenFailed port_in_use /\
  logs (trace (serveMesh quad_core_port_taken "/srv" bare_config)) =
    [LogError "Unable to start GraphQL-Mesh: listen EADDRINUSE: address already in use 127.0.0.1:4000"] /\
  logs (trace (serveMesh (quad_core false) "/srv" (with_port (-1) bare_config))) = [] /\
  List.filter is_listen (trace (serveMesh (quad_core true) "/srv" (with_fork 2 bare_config))) = [].
Proof.
  assert (List.filter is_listen (trace (serveMesh quad_core_port_taken "/srv" bare_config)) <> [])
    as Hb by (vm_compute; discriminate).
  split; [exact Hb|]. split; [reflexivity|]. split; [|split].
  - exact (proj1 (proj1 (bind_failure_is_logged quad_core_port_taken "/srv" bare_config)
                    port_in_use Hb eq_refl)).
  - refine (proj1 (proj2 (proj1 (proj2 (bind_failure_is_logged (quad_core false) "/srv"
                                          (with_port (-1) bare_config)))
                            eq_refl eq_refl (or_introl _)))).
    reflexivity.
  - refine (proj1 (proj2 (proj2 (bind_failure_is_logged (quad_core true) "/srv"
                                   (with_fork 2 bare_config))) 2 eq_refl eq_refl _)).
    discriminate.
Defined.

(** ** The endpoint path and the defaults *)

Lemma upload_limits_defaults (cfg : ServeConfig) :
  upload_limits cfg =
    (default 10000000 (upload cfg ≫= maxFileSize), default 10 (upload cfg ≫= maxFiles)).
Proof. unfold upload_limits. destruct (upload cfg); reflexivity. Qed.

(** C10: the endpoint path is ['/graphql'] whatever the configuration: the
    GraphQL handler is mounted there, the WebSocket server is attached
    there, and the serve URL ends in it; a field left out takes its
    default: hostname ['localhost'], [maxFileSize] 10000000, [maxFiles]
    10, [maxRequestBodySize] ['100kb']. *)
Theorem graphql_path_and_defaults (env : Env) (baseDir : string) (cfg : ServeConfig) :
  graphqlPath = "/graphql" /\
  serverUrl cfg =
    protocol cfg +:+ "://" +:+ default "localhost" (hostname cfg) +:+ ":" +:+
    pretty (port cfg) +:+ "/graphql" /\
  (serves env cfg = true ->
   outcome (serveMesh env baseDir cfg) = inr tt ->
   let t := trace (serveMesh env baseDir cfg) in
   Mount "use" None [BodyParserJson (default "100kb" (maxRequestBodySize cfg))] ∈ t /\
   Mount "use" (Some "/graphql")
         [GraphqlUpload (default 10000000 (upload cfg ≫= maxFileSize))
                        (default 10 (upload cfg ≫= maxFiles));
          GraphqlHandler] ∈ t /\
   NewWsServer "/graphql" ∈ t /\
   Listen (port cfg) (default "localhost" (hostname cfg)) ∈ t /\
   (listen_outcome env = Listening -> truthy_number (fork cfg) = false ->
      LogInfo (serving_prefix +:+ serverUrl cfg) ∈ t)).
Proof.
  split; [reflexivity|]. split; [reflexivity|].
  intros Hs. rewrite (serveMesh_serving _ _ _ Hs). intros Hdone.
  destruct (listener_branch_completed _ _ _ Hdone) as [Hok Hport].
  rewrite (listener_branch_ok _ _ _ Hok). simpl.
  destruct (setup_ok _ _ _ Hok) as [_ ->].
  rewrite upload_limits_defaults. simpl.
  rewrite (listen_run _ _ Hport).
  repeat split; try find_event.
  intros Hl Hf. rewrite Hl, Hf. find_event.
Qed.

Lemma graphql_path_and_defaults_witness :
  let env := quad_core false in
  serves env bare_config = true /\
  outcome (serveMesh env "/srv" bare_config) = inr tt /\
  Mount "use" None [BodyParserJson "100kb"] ∈ trace (serveMesh env "/srv" bare_config) /\
  Mount "use" (Some "/graphql") [GraphqlUpload 10000000 10; GraphqlHandler] ∈
    trace (serveMesh env "/srv" bare_config) /\
  Listen 4000 "localhost" ∈ trace (serveMesh env "/srv" bare_config) /\
  LogInfo (serving_prefix +:+ "http://localhost:4000/graphql") ∈
    trace (serveMesh env "/srv" bare_config).
Proof.
  simpl.
  destruct (proj2 (proj2 (graphql_path_and_defaults (quad_core false) "/srv" bare_config))
              eq_refl eq_refl) as (Hb & Hg & _ & Hl & Hu).
  split; [reflexivity|]. split; [reflexivity|]. split; [exact Hb|]. split; [exact Hg|].
  split; [exact Hl|]. exact (Hu eq_refl eq_refl).
Defined.

(** ** How the setup fails *)

Lemma mount_cors_run (cfg : ServeConfig) :
  mount_cors cfg =
    (match cors cfg with Some c => [Mount "use" None [Cors c]] | None => [] end, inr tt).
Proof. unfold mount_cors. destruct (cors cfg); reflexivity. Qed.

Lemma mount_static_run (env : Env) (baseDir : string) (cfg : ServeConfig) :
  mount_static env baseDir cfg =
    (match staticFiles cfg with
     | Some dir =>
         if truthy_string (Some dir) then
           Mount "use" None [Static dir] ::
           (if pathExists env (join env [baseDir; dir; "index.html"])
            then [Mount "get" (Some "/") [SendFile (join env [baseDir; dir; "index.html"])]]
            else [])
         else []
     | None => []
     end, inr tt).
Proof.
  unfold mount_static. destruct (staticFiles cfg) as [dir|]; [|reflexivity].
  destruct (truthy_string (Some dir)); [|reflexivity].
  destruct (pathExists env _); reflexivity.
Qed.

Lemma create_server_ok (env : Env) (cfg : ServeConfig) :
  outcome (create_server env cfg) = inr tt ->
  trace (create_server env cfg) =
    match sslCredentials cfg with
    | Some creds =>
        match readFile env (key creds), readFile env (cert creds) with
        | inr k, inr c => [CreateHTTPSServer k c]
        | _, _ => []
        end
    | None => [CreateHTTPServer]
    end.
Proof.
  unfold create_server, read_credentials.
  destruct (sslCredentials cfg) as [creds|]; [|reflexivity].
  destruct (readFile env (key creds)) as [e1|k]; [discriminate|].
  destruct (readFile env (cert creds)) as [e2|c]; [discriminate|].
  simpl. destruct (createSecureContext env k c) as [e3|[]]; [discriminate|reflexivity].
Qed.

Lemma resume_all_fails (env : Env) (ps : list PendingLoad) (p : PendingLoad) :
  p ∈ ps -> dynamic_mount env p = None ->
  exists e, outcome (resume_all env ps) = inl e.
Proof.
  intros Hin Hnone. induction ps as [|q ps IH]; [inversion Hin|].
  simpl. pose proof (resume_load_ok env q) as Hq.
  destruct (resume_load env q) as [t1 r1]. destruct (resume_all env ps) as [t2 r2].
  simpl in *. destruct r1 as [e1|[]]; [exists e1; reflexivity|].
  apply elem_of_cons in Hin as [->|Hin].
  - destruct (Hq eq_refl) as [x Hx]. congruence.
  - apply IH, Hin.
Qed.

Lemma mount_handlers_outcome (env : Env) (cfg : ServeConfig) (hs : list HandlerEntry) :
  handlers cfg = Some hs ->
  outcome (mount_handlers env cfg) =
    outcome (resume_all env (settle_order env (omap load_of hs))).
Proof.
  intros H. unfold mount_handlers. rewrite H.
  rewrite (bind_ok _ _ tt) by reflexivity. simpl. rewrite map_pass_pending. reflexivity.
Qed.




Lemma setup_outcome (env : Env) (baseDir : string) (cfg : ServeConfig) :
  outcome (setup env baseDir cfg) =
    match outcome (create_server env cfg) with
    | inl e => inl e
    | inr _ =>
        match outcome (mount_handlers env cfg) with
        | inl e => inl e
        | inr _ => outcome (mount_playground env cfg)
        end
    end.
Proof.
  unfold setup. rewrite mount_cors_run, mount_static_run.
  destruct (create_server env cfg) as [t1 [e1|[]]]; [reflexivity|].
  destruct (mount_handlers env cfg) as [t4 [e4|[]]]; [reflexivity|].
  destruct (mount_playground env cfg) as [t5 [e5|[]]]; reflexivity.
Qed.



(** ** Failures of the startup *)



(** X2: when one of the key file and the certificate file cannot be
    read, a serving run rejects with the error of that read, having only
    set the proxy trust: no server is created and nothing is mounted. *)
Theorem credentials_read_failure (env : Env) (baseDir : string) (cfg : ServeConfig)
  (creds : SslCredentials) (e : JsError) :
  serves env cfg = true ->
  sslCredentials cfg = Some creds ->
  readFile env (key creds) = inl e /\ (exists c, readFile env (cert creds) = inr c) \/
  (exists k, readFile env (key creds) = inr k) /\ readFile env (cert creds) = inl e ->
  serveMesh env baseDir cfg = ([AppSet "trust proxy" "loopback"], inl e).
Proof.
  intros Hs Hc Hread. rewrite (serveMesh_serving _ _ _ Hs).
  assert (create_server env cfg = ([], inl e)) as Hcs.
  { unfold create_server, read_credentials. rewrite Hc.
    destruct Hread as [[Hk _]|[[k Hk] Hcert]]; rewrite Hk; [reflexivity|].
    simpl. rewrite Hcert. reflexivity. }
  unfold listener_branch, setup. rewrite Hcs. reflexivity.
Qed.

Lemma credentials_read_failure_witness :
  let env := with_readFile missing_key (quad_core false) in
  let cfg := with_sslCredentials sample_credentials bare_config in
  serves env cfg = true /\
  sslCredentials cfg = Some sample_credentials /\
  readFile env (key sample_credentials) = inl no_such_file /\
  serveMesh env "/srv" cfg = ([AppSet "trust proxy" "loopback"], inl no_such_file).
Proof.
  simpl. split; [reflexivity|]. split; [reflexivity|]. split; [reflexivity|].
  refine (credentials_read_failure (with_readFile missing_key (quad_core false)) "/srv"
            (with_sslCredentials sample_credentials bare_config)
            sample_credentials no_such_file eq_refl eq_refl (or_introl (conj eq_refl _))).
  eexists. reflexivity.
Defined.

Lemma entry_fails_no_mount (env : Env) (h : HandlerEntry) (p : PendingLoad) :
  entry_fails env h = true -> load_of h = Some p -> dynamic_mount env p = None.
Proof.
  destruct h as [path m hd|]; [|discriminate]. simpl.
  intros Hf Hl. injection Hl as <-. unfold dynamic_mount. simpl.
  destruct (loadFromModuleExportExpression env hd); [reflexivity|].
  destruct m; [discriminate|reflexivity].
Qed.

(** X3: a serving run rejects whenever some configured dynamic handler
    has a module that does not load or declares no method, whatever else
    is configured. *)
Theorem handler_failure_is_fatal (env : Env) (baseDir : string) (cfg : ServeConfig)
  (hs : list HandlerEntry) (h : HandlerEntry) :
  serves env cfg = true ->
  handlers cfg = Some hs ->
  h ∈ hs ->
  entry_fails env h = true ->
  exists e, outcome (serveMesh env baseDir cfg) = inl e.
Proof.
  intros Hs Hh Hin Hf.
  assert (exists e, outcome (setup env baseDir cfg) = inl e) as [e He'];
    [|exists e; rewrite (serveMesh_serving _ _ _ Hs), listener_branch_outcome, He';
      reflexivity].
  rewrite setup_outcome.
  destruct (outcome (create_server env cfg)) as [e|[]]; [exists e; reflexivity|].
  destruct h as [path m hd|]; [|discriminate].
  set (p := {| pending_path := path; pending_method := m; pending_handler := hd |}).
  assert (p ∈ settle_order env (omap load_of hs)) as Hp.
  { rewrite settle_order_perm. apply list_elem_of_omap.
    exists (DynamicHandler path m hd). split; [exact Hin|reflexivity]. }
  destruct (resume_all_fails env _ p Hp
              (entry_fails_no_mount env (DynamicHandler path m hd) p Hf eq_refl)) as [e He].
  rewrite (mount_handlers_outcome env cfg hs Hh), He. exists e. reflexivity.
Qed.

Lemma handler_failure_is_fatal_witness :
  let env := quad_core false in
  let hs := [WebhookBridge "/a" "topic" None; DynamicHandler "/hook" None "./hook.js"] in
  serves env (with_handlers hs bare_config) = true /\
  entry_fails env (DynamicHandler "/hook" None "./hook.js") = true /\
  exists e, outcome (serveMesh env "/srv" (with_handlers hs bare_config)) = inl e.
Proof.
  simpl. split; [reflexivity|]. split; [reflexivity|].
  refine (handler_failure_is_fatal (quad_core false) "/srv"
            (with_handlers [WebhookBridge "/a" "topic" None;
                            DynamicHandler "/hook" None "./hook.js"] bare_config)
            _ (DynamicHandler "/hook" None "./hook.js") eq_refl eq_refl _ eq_refl).
  apply elem_of_cons. right. apply elem_of_cons. left. reflexivity.
Defined.

(** ** The shape of a successful setup *)

Lemma mount_handlers_handler_mounts (env : Env) (cfg : ServeConfig) :
  Forall (fun e => is_handler_mount e = true) (trace (mount_handlers env cfg)).
Proof.
  destruct (handlers cfg) as [hs|] eqn:Hh.
  - rewrite (mount_handlers_trace env cfg hs Hh).
    apply Forall_app. split; apply Forall_forall; intros e He;
      apply list_elem_of_omap in He as (x & _ & Hx).
    + destruct x; [discriminate|]. injection Hx as <-. reflexivity.
    + unfold dynamic_mount in Hx.
      destruct (loadFromModuleExportExpression env _); [discriminate|].
      destruct (mount_verb _); [discriminate|].
      destruct (app_member env _); [|discriminate]. injection Hx as <-. reflexivity.
  - unfold mount_handlers. rewrite Hh. constructor.
Qed.

Lemma filter_setup_shape (P : Event -> bool) (a b c g w u p : Event)
  (t1 t2 t3 t4 t5 : list Event) :
  List.filter P t4 = [] ->
  List.filter P (a :: t1 ++ t2 ++ b :: c :: t3 ++ g :: w :: u :: p :: t4 ++ t5) =
    List.filter P [a] ++ List.filter P t1 ++ List.filter P t2 ++ List.filter P [b; c] ++
    List.filter P t3 ++ List.filter P [g; w; u; p] ++ List.filter P t5.
Proof.
  intros H. simpl. repeat (rewrite List.filter_app; simpl).
  rewrite H.
  destruct (P a), (P b), (P c), (P g), (P w), (P u), (P p); simpl;
    repeat (rewrite <- ?app_assoc; simpl); reflexivity.
Qed.

(** What a filter keeps of the trace of a setup that went through, when
    it keeps no mount of a configured entry. *)
Lemma setup_filter_ok (P : Event -> bool) (env : Env) (baseDir : string) (cfg : ServeConfig) :
  (forall e, is_handler_mount e = true -> P e = false) ->
  outcome (setup env baseDir cfg) = inr tt ->
  List.filter P (trace (setup env baseDir cfg)) =
    List.filter P [AppSet "trust proxy" "loopback"] ++
    List.filter P (trace (create_server env cfg)) ++
    List.filter P (trace (mount_cors cfg)) ++
    List.filter P [Mount "use" None [BodyParserJson (body_limit cfg)];
                   Mount "use" None [CookieParser]] ++
    List.filter P (trace (mount_static env baseDir cfg)) ++
    List.filter P [Mount "use" (Some graphqlPath)
                     [GraphqlUpload (upload_limits cfg).1 (upload_limits cfg).2; GraphqlHandler];
                   NewWsServer graphqlPath;
                   UseServer ContextFromUpgradeRequest;
                   Mount "use" None [PubSubHandler]] ++
    List.filter P (trace (mount_playground env cfg)).
Proof.
  intros HP Hok. destruct (setup_ok _ _ _ Hok) as [_ ->].
  apply filter_setup_shape.
  exact (filter_none P _ _ (mount_handlers_handler_mounts env cfg) HP).
Qed.

Lemma mount_cors_mounts (cfg : ServeConfig) :
  Forall (fun e => is_mount e = true) (trace (mount_cors cfg)).
Proof. unfold mount_cors. destruct (cors cfg); trace_steps. Qed.

Lemma mount_static_mounts (env : Env) (baseDir : string) (cfg : ServeConfig) :
  Forall (fun e => is_mount e = true) (trace (mount_static env baseDir cfg)).
Proof.
  unfold mount_static. destruct (staticFiles cfg) as [dir|]; [|trace_steps].
  destruct (truthy_string (Some dir)); trace_steps.
Qed.

Lemma mount_playground_mounts (env : Env) (cfg : ServeConfig) :
  Forall (fun e => is_mount e = true) (trace (mount_playground env cfg)).
Proof.
  unfold mount_playground, load_default_query.
  destruct (playground_enabled env cfg); [|trace_steps].
  destruct (exampleQuery cfg) as [q|]; [destruct (truthy_string (Some q))|]; trace_steps.
Qed.

Lemma listen_filter_none (P : Event -> bool) (env : Env) (cfg : ServeConfig) :
  (forall e, is_listen e = true \/ is_log e = true -> P e = false) ->
  List.filter P (trace (listen env cfg)) = [].
Proof.
  intros HP. destruct (valid_port (port cfg)) eqn:Hport;
    [|rewrite (listen_bad_port _ _ Hport); reflexivity].
  rewrite (listen_run _ _ Hport). simpl. rewrite HP by (left; reflexivity).
  destruct (listen_outcome env); [destruct (truthy_number (fork cfg))|]; simpl;
    rewrite ?HP by (right; reflexivity); reflexivity.
Qed.

(** A serving run that completes: the setup, then the bind. *)
Lemma completed_run (env : Env) (baseDir : string) (cfg : ServeConfig) :
  serves env cfg = true ->
  outcome (serveMesh env baseDir cfg) = inr tt ->
  outcome (setup env baseDir cfg) = inr tt /\
  trace (serveMesh env baseDir cfg) = trace (setup env baseDir cfg) ++ trace (listen env cfg).
Proof.
  intros Hs. rewrite (serveMesh_serving _ _ _ Hs). intros Hdone.
  destruct (listener_branch_completed _ _ _ Hdone) as [Hok Hport].
  split; [exact Hok|]. rewrite (listener_branch_ok _ _ _ Hok). reflexivity.
Qed.

Lemma completed_port (env : Env) (baseDir : string) (cfg : ServeConfig) :
  serves env cfg = true ->
  outcome (serveMesh env baseDir cfg) = inr tt ->
  valid_port (port cfg) = true.
Proof.
  intros Hs. rewrite (serveMesh_serving _ _ _ Hs). intros Hdone.
  exact (proj2 (listener_branch_completed _ _ _ Hdone)).
Qed.

(** ** The server and the index document *)

(** X4: a serving run that completes creates exactly one server: with
    TLS credentials an HTTPS server holding the contents of the key and
    certificate files, and the serve URL is an [https] one; without
    credentials a plain HTTP server, and the URL is an [http] one. *)
Theorem one_server_created (env : Env) (baseDir : string) (cfg : ServeConfig) :
  serves env cfg = true ->
  outcome (serveMesh env baseDir cfg) = inr tt ->
  let t := trace (serveMesh env baseDir cfg) in
  let authority := hostname_of cfg +:+ ":" +:+ pretty (port cfg) +:+ "/graphql" in
  match sslCredentials cfg with
  | Some creds =>
      exists k c, readFile env (key creds) = inr k /\ readFile env (cert creds) = inr c /\
        List.filter is_server_creation t = [CreateHTTPSServer k c] /\
        serverUrl cfg = "https://" +:+ authority
  | None =>
      List.filter is_server_creation t = [CreateHTTPServer] /\
      serverUrl cfg = "http://" +:+ authority
  end.
Proof.
  intros Hs Hrun. pose proof (completed_port _ _ _ Hs Hrun) as Hport.
  destruct (completed_run _ _ _ Hs Hrun) as [Hok ->]. simpl.
  assert (forall e, is_mount e = true -> is_server_creation e = false) as Hm
    by (intros []; simpl; congruence).
  assert (forall e, is_handler_mount e = true -> is_server_creation e = false) as Hh
    by (intros []; simpl; congruence).
  rewrite List.filter_app, (setup_filter_ok _ _ _ _ Hh Hok).
  rewrite (filter_none _ _ _ (mount_cors_mounts cfg) Hm).
  rewrite (filter_none _ _ _ (mount_static_mounts env baseDir cfg) Hm).
  rewrite (filter_none _ _ _ (mount_playground_mounts env cfg) Hm).
  rewrite listen_filter_none by (intros [] [H|H]; simpl in *; congruence).
  simpl. rewrite app_nil_r.
  assert (outcome (create_server env cfg) = inr tt) as Hcs.
  { rewrite setup_outcome in Hok. destruct (outcome (create_server env cfg)) as [e|[]];
      [discriminate|reflexivity]. }
  rewrite (create_server_ok _ _ Hcs). unfold serverUrl, protocol.
  revert Hcs. unfold create_server, read_credentials.
  destruct (sslCredentials cfg) as [creds|]; [|intros _; split; reflexivity].
  destruct (readFile env (key creds)) as [e1|k]; [discriminate|].
  destruct (readFile env (cert creds)) as [e2|c]; [discriminate|].
  intros _. exists k, c. repeat split; reflexivity.
Qed.

Lemma one_server_created_witness :
  let env := quad_core false in
  let cfg := with_sslCredentials sample_credentials bare_config in
  serves env cfg = true /\
  outcome (serveMesh env "/srv" cfg) = inr tt /\
  exists k c,
    List.filter is_server_creation (trace (serveMesh env "/srv" cfg)) = [CreateHTTPSServer k c] /\
    serverUrl cfg = "https://localhost:4000/graphql".
Proof.
  simpl. split; [reflexivity|]. split; [reflexivity|].
  destruct (one_server_created (quad_core false) "/srv"
              (with_sslCredentials sample_credentials bare_config) eq_refl eq_refl)
    as (k & c & _ & _ & Hf & Hu).
  exists k, c. split; [exact Hf|exact Hu].
Defined.

(** X5: in a serving run that completes, the routes that send a file are:
    [GET /] sending [index.html] of the static root under the base
    directory, when a static root is configured and that file exists;
    none otherwise. *)
Theorem index_document_route (env : Env) (baseDir : string) (cfg : ServeConfig) :
  serves env cfg = true ->
  outcome (serveMesh env baseDir cfg) = inr tt ->
  List.filter mounts_send_file (trace (serveMesh env baseDir cfg)) =
    match staticFiles cfg with
    | Some dir =>
        let indexPath := join env [baseDir; dir; "index.html"] in
        if negb (String.eqb dir "") && pathExists env indexPath
        then [Mount "get" (Some "/") [SendFile indexPath]]
        else []
    | None => []
    end.
Proof.
  intros Hs Hrun. pose proof (completed_port _ _ _ Hs Hrun) as Hport.
  destruct (completed_run _ _ _ Hs Hrun) as [Hok ->].
  rewrite List.filter_app.
  assert (forall e, is_handler_mount e = true -> mounts_send_file e = false) as Hh
    by (intros [| | | | | |? [?|] [|[] [|? ?]]| | |]; simpl; congruence).
  rewrite (setup_filter_ok _ _ _ _ Hh Hok).
  rewrite listen_filter_none by (intros [] [H|H]; simpl in *; congruence).
  assert (outcome (create_server env cfg) = inr tt) as Hcs.
  { rewrite setup_outcome in Hok. destruct (outcome (create_server env cfg)) as [e|[]];
      [discriminate|reflexivity]. }
  rewrite (create_server_ok _ _ Hcs).
  rewrite (mount_playground_ok _ _ (proj1 (setup_ok _ _ _ Hok))).
  rewrite mount_cors_run, mount_static_run. simpl.
  assert (List.filter mounts_send_file
            match sslCredentials cfg with
            | Some creds =>
                match readFile env (key creds), readFile env (cert creds) with
                | inr k, inr c => [CreateHTTPSServer k c]
                | _, _ => []
                end
            | None => [CreateHTTPServer]
            end = []) as ->.
  { destruct (sslCredentials cfg) as [creds|]; [|reflexivity].
    destruct (readFile env (key creds)); [reflexivity|].
    destruct (readFile env (cert creds)); reflexivity. }
  assert (List.filter mounts_send_file
            match cors cfg with Some c => [Mount "use" None [Cors c]] | None => [] end = [])
    as -> by (destruct (cors cfg); reflexivity).
  assert (List.filter mounts_send_file
            (if playground_enabled env cfg
             then (if truthy_string (staticFiles cfg) then []
                   else [Mount "get" (Some "/") [playgroundMiddleware env cfg]]) ++
                  [Mount "get" (Some graphqlPath) [playgroundMiddleware env cfg];
                   Mount "use" None [Static (join env [dirname env; "./public"])]]
             else []) = []) as ->.
  { destruct (playground_enabled env cfg); [|reflexivity].
    destruct (truthy_string (staticFiles cfg)); reflexivity. }
  simpl. rewrite !app_nil_r.
  destruct (staticFiles cfg) as [dir|]; [|reflexivity]. simpl.
  destruct (String.eqb dir ""); simpl; [reflexivity|].
  destruct (pathExists env _); reflexivity.
Qed.

Lemma index_document_route_witness :
  let env := with_pathExists (fun _ => true) (quad_core false) in
  let cfg := with_staticFiles "public" bare_config in
  serves env cfg = true /\
  outcome (serveMesh env "/srv" cfg) = inr tt /\
  List.filter mounts_send_file (trace (serveMesh env "/srv" cfg)) =
    [Mount "get" (Some "/") [SendFile "/srv/public/index.html"]].
Proof.
  simpl. split; [reflexivity|]. split; [reflexivity|].
  exact (index_document_route (with_pathExists (fun _ => true) (quad_core false)) "/srv"
           (with_staticFiles "public" bare_config) eq_refl eq_refl).
Defined.

(** ** The order of the mounts *)

Lemma precedes_head (a b : Event) (l : list Event) :
  b ∈ l -> precedes a b (a :: l).
Proof.
  intros H. apply list_elem_of_split in H as (l1 & l2 & ->).
  exists [], l1, l2. reflexivity.
Qed.

Lemma precedes_cons (x a b : Event) (l : list Event) :
  precedes a b l -> precedes a b (x :: l).
Proof. intros (t1 & t2 & t3 & ->). exists (x :: t1), t2, t3. reflexivity. Qed.

Lemma precedes_app_r (a b : Event) (l l' : list Event) :
  precedes a b l -> precedes a b (l' ++ l).
Proof.
  intros (t1 & t2 & t3 & ->). exists (l' ++ t1), t2, t3. rewrite <- ?app_assoc. reflexivity.
Qed.

Lemma precedes_app_l (a b : Event) (l l' : list Event) :
  precedes a b l -> precedes a b (l ++ l').
Proof.
  intros (t1 & t2 & t3 & ->). exists t1, t2, (t3 ++ l').
  repeat (rewrite <- ?app_assoc; simpl). reflexivity.
Qed.

Lemma precedes_app (a b : Event) (l l' : list Event) :
  a ∈ l -> b ∈ l' -> precedes a b (l ++ l').
Proof.
  intros Ha Hb. apply list_elem_of_split in Ha as (l1 & l2 & ->).
  apply list_elem_of_split in Hb as (l3 & l4 & ->).
  exists l1, (l2 ++ l3), l4. repeat (rewrite <- ?app_assoc; simpl). reflexivity.
Qed.

Ltac find_member :=
  first [ assumption
        | apply elem_of_cons; left; reflexivity
        | apply elem_of_cons; right; find_member
        | apply elem_of_app; left; find_member
        | apply elem_of_app; right; find_member ].

Ltac find_order :=
  first [ apply precedes_head; find_member
        | apply precedes_app; [find_member|find_member]
        | apply precedes_cons; find_order
        | apply precedes_app_r; find_order
        | apply precedes_app_l; find_order ].

(** X6: in a serving run that completes, the mounts are made in this
    order: the CORS middleware, if configured, before the JSON body
    parser; the body parser before the GraphQL endpoint; the endpoint
    before the middleware that puts the bus on the request; that
    middleware before every configured handler; every configured handler
    before every playground mount; and all of them before the bind. *)
Theorem setup_mount_order (env : Env) (baseDir : string) (cfg : ServeConfig) :
  serves env cfg = true ->
  outcome (serveMesh env baseDir cfg) = inr tt ->
  let t := trace (serveMesh env baseDir cfg) in
  let parser := Mount "use" None [BodyParserJson (body_limit cfg)] in
  let endpoint :=
    Mount "use" (Some "/graphql")
          [GraphqlUpload (upload_limits cfg).1 (upload_limits cfg).2; GraphqlHandler] in
  let bus := Mount "use" None [PubSubHandler] in
  let bind := Listen (port cfg) (hostname_of cfg) in
  (forall c, cors cfg = Some c -> precedes (Mount "use" None [Cors c]) parser t) /\
  precedes parser endpoint t /\
  precedes endpoint bus t /\
  (forall h, h ∈ trace (mount_handlers env cfg) -> precedes bus h t) /\
  (forall h r, h ∈ trace (mount_handlers env cfg) ->
               r ∈ trace (mount_playground env cfg) -> precedes h r t) /\
  (forall r, r ∈ trace (mount_playground env cfg) -> precedes endpoint r t /\ precedes r bind t) /\
  precedes bus bind t /\
  (forall h, h ∈ trace (mount_handlers env cfg) -> precedes h bind t).
Proof.
  intros Hs Hrun. pose proof (completed_port _ _ _ Hs Hrun) as Hport.
  destruct (completed_run _ _ _ Hs Hrun) as [Hok ->].
  destruct (setup_ok _ _ _ Hok) as [_ ->]. rewrite (listen_run _ _ Hport), mount_cors_run. simpl.
  split; [intros c ->; simpl; find_order|].
  split; [find_order|]. split; [find_order|].
  split; [intros h Hh; find_order|].
  split; [intros h r Hh Hr; find_order|].
  split; [intros r Hr; split; find_order|].
  split; [find_order|intros h Hh; find_order].
Qed.

Lemma setup_mount_order_witness :
  let env := quad_core false in
  let cfg := with_handlers [WebhookBridge "/hook" "topic" None] bare_config in
  serves env cfg = true /\
  outcome (serveMesh env "/srv" cfg) = inr tt /\
  precedes (Mount "use" None [PubSubHandler]) (Mount "use" (Some "/hook") [Bridge "topic" None])
           (trace (serveMesh env "/srv" cfg)) /\
  precedes (Mount "use" (Some "/hook") [Bridge "topic" None])
           (Mount "get" (Some "/graphql") [Playground None "/graphql"])
           (trace (serveMesh env "/srv" cfg)).
Proof.
  simpl. split; [reflexivity|]. split; [reflexivity|].
  destruct (setup_mount_order (quad_core false) "/srv"
              (with_handlers [WebhookBridge "/hook" "topic" None] bare_config)
              eq_refl eq_refl) as (_ & _ & _ & Hb & Hp & _).
  split.
  - apply Hb. apply elem_of_cons. left. reflexivity.
  - apply Hp.
    + apply elem_of_cons. left. reflexivity.
    + apply elem_of_cons. right. apply elem_of_cons. left. reflexivity.
Defined.

(** ** Logging and binding *)

(** X7: in a serving run whose bind succeeds, the serve URL is announced,
    once, exactly when [fork] is unset or zero; a worker (a serving
    process with [fork] set) announces nothing: in fork mode the
    announcement is the master's alone. *)
Theorem log_lines (env : Env) (baseDir : string) (cfg : ServeConfig) :
  serves env cfg = true ->
  outcome (serveMesh env baseDir cfg) = inr tt ->
  listen_outcome env = Listening ->
  logs (trace (serveMesh env baseDir cfg)) =
    if truthy_number (fork cfg) then []
    else [LogInfo (serving_prefix +:+ serverUrl cfg)].
Proof.
  intros Hs Hrun Hl. pose proof (completed_port _ _ _ Hs Hrun) as Hport.
  destruct (completed_run _ _ _ Hs Hrun) as [Hok ->].
  unfold logs.
  rewrite List.filter_app, (setup_filter_none _ _ _ _ is_setup_not_log), (listen_run _ _ Hport), Hl.
  destruct (truthy_number (fork cfg)); reflexivity.
Qed.

Lemma log_lines_witness :
  let env := quad_core false in
  let cfg := with_fork 4 bare_config in
  serves env cfg = true /\
  outcome (serveMesh env "/srv" cfg) = inr tt /\
  listen_outcome env = Listening /\
  logs (trace (serveMesh env "/srv" cfg)) = [] /\
  logs (trace (serveMesh env "/srv" bare_config)) =
    [LogInfo (serving_prefix +:+ "http://localhost:4000/graphql")].
Proof.
  simpl. split; [reflexivity|]. split; [reflexivity|]. split; [reflexivity|]. split.
  - exact (log_lines (quad_core false) "/srv" (with_fork 4 bare_config)
             eq_refl eq_refl eq_refl).
  - exact (log_lines (quad_core false) "/srv" bare_config eq_refl eq_refl eq_refl).
Defined.

(** X8: a serving run that completes binds exactly once, with the
    configured port and the resolved hostname, after the whole setup;
    what precedes the bind are setup events only, what follows it are
    log lines only. *)
Theorem binds_once_after_setup (env : Env) (baseDir : string) (cfg : ServeConfig) :
  serves env cfg = true ->
  outcome (serveMesh env baseDir cfg) = inr tt ->
  let t := trace (serveMesh env baseDir cfg) in
  List.filter is_listen t = [Listen (port cfg) (hostname_of cfg)] /\
  exists after,
    t = trace (setup env baseDir cfg) ++ Listen (port cfg) (hostname_of cfg) :: after /\
    Forall (fun e => is_setup e = true) (trace (setup env baseDir cfg)) /\
    Forall (fun e => is_log e = true) after.
Proof.
  intros Hs Hrun. pose proof (completed_port _ _ _ Hs Hrun) as Hport.
  destruct (completed_run _ _ _ Hs Hrun) as [Hok ->]. simpl.
  rewrite List.filter_app, (setup_filter_none _ _ _ _ is_setup_not_listen), (listen_run _ _ Hport).
  split.
  - simpl. destruct (listen_outcome env); [destruct (truthy_number (fork cfg))|]; reflexivity.
  - eexists. split; [reflexivity|]. split; [apply setup_is_setup|].
    destruct (listen_outcome env); [destruct (truthy_number (fork cfg))|]; simpl;
      repeat constructor.
Qed.

Lemma binds_once_after_setup_witness :
  let env := quad_core false in
  serves env bare_config = true /\
  outcome (serveMesh env "/srv" bare_config) = inr tt /\
  List.filter is_listen (trace (serveMesh env "/srv" bare_config)) = [Listen 4000 "localhost"].
Proof.
  simpl. split; [reflexivity|]. split; [reflexivity|].
  exact (proj1 (binds_once_after_setup (quad_core false) "/srv" bare_config eq_refl eq_refl)).
Defined.

(** ** The example documents *)

Lemma string_app_assoc (a b c : string) : (a +:+ b) +:+ c = a +:+ (b +:+ c).
Proof.
  induction a as [|x a IH]; [reflexivity|].
  change (String x ((a +:+ b) +:+ c) = String x (a +:+ (b +:+ c))). rewrite IH. reflexivity.
Qed.

Lemma string_app_nil_r (a : string) : a +:+ EmptyString = a.
Proof.
  induction a as [|x a IH]; [reflexivity|].
  change (String x (a +:+ EmptyString) = String x a). rewrite IH. reflexivity.
Qed.

Lemma concat_empty_cons (x : string) (xs : list string) :
  String.concat EmptyString (x :: xs) = x +:+ String.concat EmptyString xs.
Proof. destruct xs; [symmetry; apply string_app_nil_r|reflexivity]. Qed.

Lemma concat_sdl_from (acc : string) (documents : list (option string)) :
  foldl (fun acc doc => acc +:+ or_default "undefined" doc +:+ newline) acc documents =
  acc +:+ String.concat EmptyString
            ((fun doc => or_default "undefined" doc +:+ newline) <$> documents).
Proof.
  revert acc. induction documents as [|d ds IH]; intros acc.
  - simpl. rewrite string_app_nil_r. reflexivity.
  - rewrite fmap_cons, concat_empty_cons. cbn [foldl]. rewrite IH.
    rewrite string_app_assoc. reflexivity.
Qed.

Lemma resume_all_ext (env env' : Env) (ps : list PendingLoad) :
  loadFromModuleExportExpression env' = loadFromModuleExportExpression env ->
  app_member env' = app_member env ->
  resume_all env' ps = resume_all env ps.
Proof.
  intros H Hm. induction ps as [|p ps IH]; [reflexivity|].
  simpl. rewrite IH. unfold resume_load. rewrite H, Hm. reflexivity.
Qed.

(** X9: with the playground disabled, or with no example query
    configured, the example documents are never loaded: the run is the
    same whatever the document loader would do. *)
Theorem documents_not_loaded (env : Env) (baseDir : string) (cfg : ServeConfig)
  (loader : string -> JsError + list (option string)) :
  playground_enabled env cfg = false \/ truthy_string (exampleQuery cfg) = false ->
  serveMesh (with_loadDocuments loader env) baseDir cfg = serveMesh env baseDir cfg.
Proof.
  intros H.
  assert (mount_playground (with_loadDocuments loader env) cfg = mount_playground env cfg)
    as Hp.
  { unfold mount_playground, load_default_query.
    change (playground_enabled (with_loadDocuments loader env) cfg)
      with (playground_enabled env cfg).
    destruct H as [-> | H]; [reflexivity|].
    destruct (playground_enabled env cfg); [|reflexivity].
    destruct (exampleQuery cfg) as [q|]; [|reflexivity].
    rewrite H. reflexivity. }
  assert (mount_handlers (with_loadDocuments loader env) cfg = mount_handlers env cfg)
    as Hh.
  { unfold mount_handlers. destruct (handlers cfg) as [hs|]; [|reflexivity].
    change (settle_order (with_loadDocuments loader env)) with (settle_order env).
    rewrite (resume_all_ext env (with_loadDocuments loader env)) by reflexivity.
    reflexivity. }
  unfold serveMesh, listener_branch, setup. rewrite Hp, Hh. reflexivity.
Qed.

Lemma documents_not_loaded_witness :
  let cfg := with_exampleQuery "./queries/*.graphql" (with_playground false bare_config) in
  let failing := with_loadDocuments (fun _ => inl no_such_file) (quad_core false) in
  playground_enabled (quad_core false) cfg = false /\
  outcome (serveMesh failing "/srv" cfg) = inr tt.
Proof.
  split; [reflexivity|].
  exact (eq_trans
           (f_equal outcome
              (documents_not_loaded (quad_core false) "/srv"
                 (with_exampleQuery "./queries/*.graphql" (with_playground false bare_config))
                 (fun _ => inl no_such_file) (or_introl eq_refl)))
           eq_refl).
Defined.

(** X10: in a serving run that completes with the playground enabled and
    an example query whose documents load, the playground route at the
    endpoint carries as default query the SDL of the documents in their
    order, each followed by a newline; a document without SDL
    contributes the text [undefined]. *)
Theorem default_query_of_documents (env : Env) (baseDir : string) (cfg : ServeConfig)
  (q : string) (documents : list (option string)) :
  serves env cfg = true ->
  outcome (serveMesh env baseDir cfg) = inr tt ->
  playground_enabled env cfg = true ->
  exampleQuery cfg = Some q -> q <> EmptyString ->
  loadDocuments env q = inr documents ->
  Mount "get" (Some "/graphql")
        [Playground
           (Some (String.concat EmptyString
                    ((fun doc => default "undefined" doc +:+ newline) <$> documents)))
           "/graphql"] ∈ trace (serveMesh env baseDir cfg).
Proof.
  intros Hs Hrun Hen Hq Hne Hd. pose proof (completed_port _ _ _ Hs Hrun) as Hport.
  destruct (completed_run _ _ _ Hs Hrun) as [Hok ->].
  destruct (setup_ok _ _ _ Hok) as [Hp ->].
  rewrite (mount_playground_ok _ _ Hp), Hen.
  assert (playgroundMiddleware env cfg =
          Playground
            (Some (String.concat EmptyString
                     ((fun doc => default "undefined" doc +:+ newline) <$> documents)))
            "/graphql") as ->.
  { unfold playgroundMiddleware, default_query. rewrite Hq. simpl.
    destruct (String.eqb_spec q ""); [contradiction|]. simpl. rewrite Hd.
    unfold concat_sdl. rewrite concat_sdl_from. reflexivity. }
  destruct (truthy_string (staticFiles cfg)); simpl; find_member.
Qed.

Lemma default_query_of_documents_witness :
  let env := with_loadDocuments (fun _ => inr [Some "query A { a }"; None]) (quad_core false) in
  let cfg := with_exampleQuery "./queries/*.graphql" bare_config in
  serves env cfg = true /\
  outcome (serveMesh env "/srv" cfg) = inr tt /\
  Mount "get" (Some "/graphql")
        [Playground (Some ("query A { a }" +:+ newline +:+ "undefined" +:+ newline)) "/graphql"]
    ∈ trace (serveMesh env "/srv" cfg).
Proof.
  simpl. split; [reflexivity|]. split; [reflexivity|].
  refine (default_query_of_documents
            (with_loadDocuments (fun _ => inr [Some "query A { a }"; None]) (quad_core false))
            "/srv" (with_exampleQuery "./queries/*.graphql" bare_config)
            "./queries/*.graphql" [Some "query A { a }"; None]
            eq_refl eq_refl eq_refl eq_refl _ eq_refl).
  discriminate.
Defined.

(** ** The configured handlers, again *)

Lemma omap_mount_of_split (env : Env) (hs : list HandlerEntry) :
  omap (mount_of env) hs ≡ₚ
  omap bridge_mount hs ++ omap (dynamic_mount env) (omap load_of hs).
Proof.
  induction hs as [|h hs IH]; [reflexivity|].
  destruct h as [p m hd|p topic pl]; simpl.
  - destruct (dynamic_mount env _) as [e|]; [|exact IH].
    rewrite IH. apply Permutation_middle.
  - constructor. exact IH.
Qed.

(** X11: when the mounting of the configured handlers goes through, every
    entry has been mounted exactly once: the mounts are a rearrangement
    of the mounts of the entries, one for each entry. *)
Theorem every_entry_mounted_once (env : Env) (cfg : ServeConfig) (hs : list HandlerEntry) :
  handlers cfg = Some hs ->
  outcome (mount_handlers env cfg) = inr tt ->
  trace (mount_handlers env cfg) ≡ₚ omap (mount_of env) hs /\
  Forall (fun h => is_Some (mount_of env h)) hs /\
  length (trace (mount_handlers env cfg)) = length hs.
Proof.
  intros Hh Hok.
  assert (trace (mount_handlers env cfg) ≡ₚ omap (mount_of env) hs) as Hperm.
  { rewrite (mount_handlers_trace env cfg hs Hh), omap_mount_of_split.
    rewrite (settle_order_perm env). reflexivity. }
  assert (Forall (fun h => is_Some (mount_of env h)) hs) as Hall.
  { rewrite (mount_handlers_outcome env cfg hs Hh) in Hok.
    apply resume_all_ok in Hok. rewrite Forall_forall in Hok.
    apply Forall_forall. intros h Hin. destruct h as [p m hd|p topic pl].
    - simpl. apply Hok. rewrite settle_order_perm. apply list_elem_of_omap.
      exists (DynamicHandler p m hd). split; [exact Hin|reflexivity].
    - eexists. reflexivity. }
  split; [exact Hperm|]. split; [exact Hall|].
  rewrite Hperm. clear Hperm Hh Hok.
  induction Hall as [|h hs [e He] _ IH]; [reflexivity|].
  simpl. rewrite He. simpl. f_equal. exact IH.
Qed.

Lemma every_entry_mounted_once_witness :
  let env := quad_core false in
  let hs := [DynamicHandler "/a" (Some "GET") "./a.js"; WebhookBridge "/a" "topic" None] in
  handlers (with_handlers hs bare_config) = Some hs /\
  outcome (mount_handlers env (with_handlers hs bare_config)) = inr tt /\
  length (trace (mount_handlers env (with_handlers hs bare_config))) = 2%nat.
Proof.
  simpl. split; [reflexivity|]. split; [reflexivity|].
  exact (proj2 (proj2 (every_entry_mounted_once (quad_core false)
                         (with_handlers [DynamicHandler "/a" (Some "GET") "./a.js";
                                         WebhookBridge "/a" "topic" None] bare_config)
                         _ eq_refl eq_refl))).
Defined.





(** ** The verb of a dynamic handler *)

Lemma lower_ascii_idem (c : Ascii.ascii) : lower_ascii (lower_ascii c) = lower_ascii c.
Proof. destruct c as [[] [] [] [] [] [] [] []]; reflexivity. Qed.

Lemma toLowerCase_idem (s : string) : toLowerCase (toLowerCase s) = toLowerCase s.
Proof.
  induction s as [|c s IH]; [reflexivity|].
  simpl. rewrite lower_ascii_idem, IH. reflexivity.
Qed.

Lemma toLowerCase_empty (s : string) : toLowerCase s = EmptyString <-> s = EmptyString.
Proof. destruct s; simpl; split; intros H; try reflexivity; discriminate. Qed.

(** X13: a dynamic handler with a declared method is mounted under a verb
    that is never empty and is its own lower-case form: the lower-cased
    method, or ['use'] for the empty method and for it alone.  A method
    and its lower-case spelling select the same verb. *)
Theorem mount_verb_shape (m : string) :
  exists verb,
    mount_verb (Some m) = inr verb /\
    verb <> EmptyString /\
    toLowerCase verb = verb /\
    (m <> EmptyString -> verb = toLowerCase m) /\
    (m = EmptyString -> verb = "use") /\
    mount_verb (Some (toLowerCase m)) = inr verb.
Proof.
  unfold mount_verb. rewrite toLowerCase_idem.
  destruct (String.eqb_spec m "") as [->|Hm].
  - exists "use". simpl. repeat split; try reflexivity; [discriminate|].
    intros H. contradiction.
  - assert (toLowerCase m <> EmptyString) as Hne
      by (intros H; apply Hm, toLowerCase_empty, H).
    destruct (String.eqb_spec (toLowerCase m) "") as [He|_]; [contradiction|].
    exists (toLowerCase m).
    repeat split; try reflexivity; [exact Hne|apply toLowerCase_idem|].
    intros ->. contradiction.
Qed.

Lemma mount_verb_shape_witness :
  "PATCH" <> EmptyString /\ mount_verb (Some "PATCH") = inr "patch".
Proof.
  assert ("PATCH" <> EmptyString) as Hne by discriminate.
  split; [exact Hne|].
  destruct (mount_verb_shape "PATCH") as (verb & Hv & _ & _ & Hl & _).
  rewrite Hv, (Hl Hne). reflexivity.
Defined.

(** ** The set of registered paths *)

Lemma registeredPaths_from (st : MapPass) (hs : list HandlerEntry) :
  registeredPaths (foldl map_step st hs) =
    list_to_set (entry_path <$> hs) ∪ registeredPaths st.
Proof.
  revert st. induction hs as [|h hs IH]; intros st.
  - simpl. rewrite (left_id_L ∅ (∪)). reflexivity.
  - simpl. rewrite IH.
    assert (registeredPaths (map_step st h) = {[ entry_path h ]} ∪ registeredPaths st) as ->
      by (destruct h; reflexivity).
    rewrite (assoc_L (∪)), (comm_L (∪) (list_to_set (entry_path <$> hs))). reflexivity.
Qed.

(** X14: after the pass over the configured handlers, the set of
    registered paths holds exactly the paths of the entries, of either
    kind; it is empty for an empty list. *)
Theorem registered_paths (hs : list HandlerEntry) (p : string) :
  p ∈ registeredPaths (map_pass hs) <-> exists h, h ∈ hs /\ entry_path h = p.
Proof.
  unfold map_pass. rewrite registeredPaths_from. simpl.
  rewrite elem_of_union, elem_of_list_to_set, list_elem_of_fmap.
  split.
  - intros [(h & -> & Hin)|H]; [exists h; split; [exact Hin|reflexivity]|].
    apply elem_of_empty in H. contradiction.
  - intros (h & Hin & <-). left. exists h. split; [reflexivity|exact Hin].
Qed.

(** ** The bridge over several requests *)

(** X15: over any sequence of requests, the bridge handler publishes one
    message for each request, in the order of the requests and after
    what was published before; it ends each response, executes nothing
    and leaves the subscribers alone. *)
Theorem bridge_requests_in_order (get : JsValue -> string -> JsValue)
  (topic : string) (payload : option string) (reqs : list Request) (bus : PubSub) :
  let calls := bridge_requests get topic payload reqs in
  published (foldl deliver bus calls) =
    published bus ++ ((fun req => (topic, bridge_payload get payload req)) <$> reqs) /\
  subscribers (foldl deliver bus calls) = subscribers bus /\
  length (List.filter is_res_end calls) = length reqs /\
  List.filter is_execution calls = [].
Proof.
  simpl. revert bus. induction reqs as [|req reqs IH]; intros bus.
  - simpl. rewrite app_nil_r. repeat split; reflexivity.
  - change (bridge_requests get topic payload (req :: reqs))
      with (PubsubPublish topic (bridge_payload get payload req) :: ResEnd ::
            bridge_requests get topic payload reqs).
    destruct (IH (deliver bus (PubsubPublish topic (bridge_payload get payload req))))
      as (Hp & Hs & Hl & He).
    cbn [foldl List.filter is_res_end is_execution length fmap list_fmap].
    change (deliver (deliver bus (PubsubPublish topic (bridge_payload get payload req))) ResEnd)
      with (deliver bus (PubsubPublish topic (bridge_payload get payload req))).
    rewrite Hp, Hs, Hl, He. simpl. rewrite <- app_assoc. repeat split; reflexivity.
Qed.

(** ** The whole listener, written out *)

Lemma setup_then_bind_shape (a b c g w u p : Event) (t1 t2 t3 t4 t5 t6 : list Event) :
  (a :: t1 ++ t2 ++ b :: c :: t3 ++ g :: w :: u :: p :: t4 ++ t5) ++ t6 =
  a :: t1 ++ t2 ++ b :: c :: t3 ++ g :: w :: u :: p :: t4 ++ t5 ++ t6.
Proof. simpl. repeat (rewrite <- app_assoc; simpl). reflexivity. Qed.

Lemma mount_handlers_none (env : Env) (cfg : ServeConfig) :
  handlers cfg = None -> trace (mount_handlers env cfg) = [].
Proof. intros H. unfold mount_handlers. rewrite H. reflexivity. Qed.

(** A listener that completes has done every step of the setup and the
    bind: its events are those of [full_listener_trace]. *)
Lemma listener_branch_trace (env : Env) (baseDir : string) (cfg : ServeConfig) :
  outcome (listener_branch env baseDir cfg) = inr tt ->
  trace (listener_branch env baseDir cfg) = full_listener_trace env baseDir cfg.
Proof.
  intros Hdone. destruct (listener_branch_completed _ _ _ Hdone) as [Hok Hport].
  rewrite (listener_branch_ok _ _ _ Hok). unfold trace. cbn [fst].
  destruct (setup_ok _ _ _ Hok) as [Hp Ht]. unfold trace in Ht. rewrite Ht. clear Ht.
  rewrite setup_then_bind_shape.
  assert (outcome (create_server env cfg) = inr tt) as Hcs.
  { rewrite setup_outcome in Hok.
    destruct (outcome (create_server env cfg)) as [|[]]; [discriminate|reflexivity]. }
  pose proof (create_server_ok env cfg Hcs) as H1. unfold trace in H1. rewrite H1. clear H1.
  pose proof (mount_playground_ok env cfg Hp) as H2. unfold trace in H2. rewrite H2. clear H2.
  pose proof (listen_run env cfg Hport) as H3. unfold trace in H3. rewrite H3. clear H3.
  rewrite mount_cors_run, mount_static_run. cbn [fst].
  assert (fst (mount_handlers env cfg) =
          match handlers cfg with
          | Some hs =>
              omap bridge_mount hs ++
              omap (dynamic_mount env) (settle_order env (omap load_of hs))
          | None => []
          end) as ->.
  { destruct (handlers cfg) as [hs|] eqn:Hh.
    - exact (mount_handlers_trace _ _ _ Hh).
    - exact (mount_handlers_none _ _ Hh). }
  unfold full_listener_trace, body_limit, upload_limits, playgroundMiddleware,
    playground_enabled, truthy_string, hostname_of, or_default, graphqlPath,
    serving_prefix, failure_prefix, serverUrl, protocol, hostname_of, or_default,
    graphqlPath.
  destruct (staticFiles cfg) as [dir|]; [destruct (String.eqb dir "")|];
    destruct (upload cfg); reflexivity.
Qed.

(** C2: a master with [fork] set spawns exactly [forkCount] workers,
    where [forkCount] is [fork] when [fork > 1] and the number of CPU
    cores otherwise, sets up and binds no listener, and logs the count
    with the URL once; a process that is not the master, or whose [fork]
    is absent or [0], spawns nothing and runs the listener itself: when
    it completes it has made every step of the setup and the bind, in
    the order of [full_listener_trace]. *)
Theorem master_fans_out (env : Env) (baseDir : string) (cfg : ServeConfig) :
  (forall f, isMaster env = true -> fork cfg = Some f -> f <> 0 ->
     let forkCount := if 1 <? f then f else Z.of_nat (cpus_length env) in
     let scheme := match sslCredentials cfg with Some _ => "https" | None => "http" end in
     let url := scheme +:+ "://" +:+ default "localhost" (hostname cfg) +:+ ":" +:+
                pretty (port cfg) +:+ "/graphql" in
     let run := serveMesh env baseDir cfg in
     outcome run = inr tt /\
     spawned (trace run) = Z.to_nat forkCount /\
     List.filter is_setup (trace run) = [] /\
     List.filter is_listen (trace run) = [] /\
     logs (trace run) =
       [LogInfo (serving_prefix +:+ serverUrl cfg +:+ " in " +:+ pretty forkCount +:+ " forks")] /\
     trace run = replicate (Z.to_nat forkCount) ClusterFork ++ logs (trace run) /\
     trace run =
       replicate (Z.to_nat forkCount) ClusterFork ++
       [LogInfo ("🕸️ => Serving GraphQL Mesh: " +:+ url +:+ " in " +:+
                 pretty forkCount +:+ " forks")]) /\
  (isMaster env = false \/ fork cfg = None \/ fork cfg = Some 0 ->
     let run := serveMesh env baseDir cfg in
     run = listener_branch env baseDir cfg /\
     spawned (trace run) = 0%nat /\
     (outcome run = inr tt ->
        trace run = trace (setup env baseDir cfg) ++ trace (listen env cfg) /\
        Listen (port cfg) (hostname_of cfg) ∈ trace run /\
        trace run = full_listener_trace env baseDir cfg /\
        AppSet "trust proxy" "loopback" ∈ trace run /\
        Mount "use" (Some "/graphql")
              [GraphqlUpload (default 10000000 (upload cfg ≫= maxFileSize))
                             (default 10 (upload cfg ≫= maxFiles));
               GraphqlHandler] ∈ trace run /\
        Listen (port cfg) (default "localhost" (hostname cfg)) ∈ trace run /\
        0 <= port cfg <= 65535)).
Proof.
  split.
  - intros f Hm Hf Hz. simpl.
    rewrite (serveMesh_master env baseDir cfg f Hm Hf Hz), master_branch_run.
    fold (forkNum env f). set (n := Z.to_nat (forkNum env f)).
    unfold spawned, logs. simpl.
    rewrite !List.filter_app, filter_fork_replicate, filter_log_replicate. simpl.
    rewrite app_nil_r, length_replicate.
    repeat split; try reflexivity;
      (induction n as [|k IH]; [reflexivity|exact IH]).
  - intros Hc. simpl.
    assert (serves env cfg = true) as Hs.
    { unfold serves. destruct Hc as [-> | [-> | ->]]; simpl; try reflexivity;
        apply negb_true_iff, andb_false_r. }
    rewrite (serveMesh_serving _ _ _ Hs).
    split; [reflexivity|]. split; [apply listener_branch_spawns_none|].
    intros Hdone. destruct (listener_branch_completed _ _ _ Hdone) as [Hok Hport].
    pose proof (listener_branch_trace _ _ _ Hdone) as Hfull.
    assert (Listen (port cfg) (hostname_of cfg)
              ∈ trace (listener_branch env baseDir cfg)) as Hbind.
    { rewrite (listener_branch_ok _ _ _ Hok). unfold trace. cbn [fst].
      apply elem_of_app. right. pose proof (listen_run env cfg Hport) as Hl.
      unfold trace in Hl. rewrite Hl. apply elem_of_cons. left. reflexivity. }
    split; [rewrite (listener_branch_ok _ _ _ Hok); reflexivity|].
    split; [exact Hbind|]. split; [exact Hfull|].
    split; [rewrite Hfull; apply elem_of_cons; left; reflexivity|].
    split.
    { rewrite (listener_branch_ok _ _ _ Hok). unfold trace. cbn [fst].
      apply elem_of_app. left.
      destruct (setup_ok _ _ _ Hok) as [_ Ht]. unfold trace in Ht. rewrite Ht.
      unfold upload_limits, or_default, graphqlPath.
      destruct (upload cfg); simpl; find_member. }
    split; [exact Hbind|].
    unfold valid_port in Hport. apply andb_true_iff in Hport as [H0 H1].
    apply Z.leb_le in H0, H1. split; assumption.
Qed.

Lemma master_fans_out_witness :
  let env := quad_core true in
  let cfg := with_fork 3 bare_config in
  isMaster env = true /\ fork cfg = Some 3 /\
  spawned (trace (serveMesh env "/srv" cfg)) = 3%nat /\
  trace (serveMesh env "/srv" cfg) =
    [ClusterFork; ClusterFork; ClusterFork;
     LogInfo "🕸️ => Serving GraphQL Mesh: http://localhost:4000/graphql in 3 forks"] /\
  Listen 4000 "localhost" ∈ trace (serveMesh (quad_core false) "/srv" cfg).
Proof.
  simpl. split; [reflexivity|]. split; [reflexivity|].
  pose proof (proj1 (master_fans_out (quad_core true) "/srv" (with_fork 3 bare_config))
                3 eq_refl eq_refl ltac:(lia)) as (_ & Hn & _ & _ & _ & _ & Ht).
  split; [exact Hn|]. split; [exact Ht|].
  pose proof (proj2 (proj2 (proj2 (master_fans_out (quad_core false) "/srv"
                                     (with_fork 3 bare_config))
                              (or_introl eq_refl))) eq_refl) as (_ & Hl & _).
  exact Hl.
Defined.
